(** * Filter Line: filtering the lines of a document in VS Code

    A shallow embedding of the extension's filtering core: [class Filter]
    and [class FilterLineBase] of [src/filter_base.ts], the substring filter
    of [src/filter_inputstring.ts] and the regular-expression filter of
    [src/unnamed/part_001], together with the properties stated for them.
    The streams and promisified file calls of [src/util.ts] are not among
    the sources: the filter stream is modelled from the specification, the
    file calls are answered by the host.

    JavaScript strings are rendered as [string].  The host (VS Code, Node's
    [fs], [path] and [os], the clock and the user) is an explicit record of
    answers, and every call into the host leaves an [Event] in a trace. *)

From Stdlib Require Import ZArith List Ascii String Decimal DecimalString Lia.
From Stdlib Require DecimalN DecimalPos.
From stdpp Require Import base strings list gmap.

Local Open Scope Z_scope.

(** ** JavaScript strings and arrays *)

Module JS.

(** The line feed, written ['\n'] in the sources. *)
Definition LF : ascii := "010"%char.
Definition NL : string := String LF "".

Definition ascii_eqb (a b : ascii) : bool := bool_decide (a = b).

(** The text that chunks, or lines, make up one after the other. *)
Definition concat (l : list string) : string := foldr String.append "" l.

(** [Array.prototype.join] *)
Fixpoint join (sep : string) (l : list string) : string :=
  match l with
  | [] => ""
  | [x] => x
  | x :: xs => x +:+ sep +:+ join sep xs
  end.

(** [String.prototype.split] with a one-character separator.  The answer
    is never empty, so it is computed as a head and a tail. *)
Fixpoint split_ne (sep : ascii) (s : string) : string * list string :=
  match s with
  | "" => ("", [])
  | String c s' =>
      let '(h, t) := split_ne sep s' in
      if ascii_eqb c sep then ("", h :: t) else (String c h, t)
  end.

Definition split (sep : ascii) (s : string) : list string :=
  let '(h, t) := split_ne sep s in h :: t.

(** [arr.slice(-1)[0]]: the last element ([undefined] on an empty array,
    which [split] never returns). *)
Definition slice_last (l : list string) : string := List.last l "".

(** [arr.slice(0, -1)] *)
Definition slice_init (l : list string) : list string := removelast l.

(** [String.prototype.indexOf]: the least position at which [pat] occurs
    in [s], and [-1] when it occurs nowhere. *)
Fixpoint indexOf_from (i : Z) (pat s : string) : Z :=
  if String.prefix pat s then i
  else match s with
       | "" => -1
       | String _ s' => indexOf_from (i + 1) pat s'
       end.

Definition indexOf (s pat : string) : Z := indexOf_from 0 pat s.

(** [Array.prototype.indexOf] on an array of strings, [None] for [-1]. *)
Fixpoint array_indexOf (l : list string) (x : string) : option nat :=
  match l with
  | [] => None
  | y :: l' => if bool_decide (y = x) then Some 0%nat
               else S <$> array_indexOf l' x
  end.

(** [arr.splice(start)]: the array keeps what lies before [start], a
    negative [start] counting from the end. *)
Definition splice_from (start : Z) (l : list string) : list string :=
  let len := Z.of_nat (length l) in
  let from := if start <? 0 then Z.max (len + start) 0 else Z.min start len in
  take (Z.to_nat from) l.

(** [Number.prototype.toString] on a non-negative integer. *)
Definition toString (n : N) : string := NilZero.string_of_uint (N.to_uint n).

End JS.

(** [s] holds [pat] as a substring. *)
Definition contains (s pat : string) : Prop :=
  exists pre post : string, s = pre +:+ pat +:+ post.

(** ** The host *)

(** [vscode.Uri], as far as the sources read it. *)
Module Uri.

Record t := mk {
  scheme : string;
  path : string;
  fsPath : string
}.

End Uri.

Record TextDocument := {
  uri : Uri.t;
  isDirty : bool
}.

(** The readable streams [createInputStream] answers with. *)
Inductive Readable :=
| TextDocumentReadStream (doc : TextDocument)
| ReadStream (fsPath : string).

(** A thrown value, with the two properties the sources read. *)
Record Error := {
  name : option string;
  message : string
}.

Definition Error_ (message : string) : Error :=
  {| name := Some "Error"; message := message |}.

(** How a call ends: with a value, with an exception (a rejected promise),
    or never (a promise nobody settles). *)
Inductive Outcome (A : Type) :=
| Returned (a : A)
| Thrown (e : Error)
| Pending.
Arguments Returned {A}.
Arguments Thrown {A}.
Arguments Pending {A}.

Abbreviation History := (gmap string (list string)).

Inductive Event :=
| AppendLine (text : string)
| ShowInformationMessage (text : string)
| ShowErrorMessage (text : string)
| ShowWarningMessage (text : string)
| GlobalStateUpdate (history : History)
| ShowQuickPick (items : list string)
| CreateReadStream (input : Readable)
| CreateWriteStream (path : string)
| WriteStreamEnd (path : string) (data : list string)
| StatAsync (path : string)
| MoveAsync (src dst : string)
| UnlinkAsync (path : string)
| NewUntitledFile
| ReadTemp (path : string)
| EditInsert (chunk : string)
| OpenTextDocument (path : string)
| ShowTextDocument (path : string).

Record Host := {
  (** configuration [filter-line] *)
  saveAfterFiltering : bool;
  historySize : Z;
  (** [os.tmpdir()], [path.sep], [path.extname], [new Date().getTime()] *)
  tmpdir : string;
  sep : ascii;
  extname : string -> string;
  getTime : N;
  (** [Uri.parse] of the [vscode] API *)
  Uri_parse : string -> Uri.t;
  (** [window.activeTextEditor] when the command starts, as its document *)
  activeTextEditor : option TextDocument;
  (** [workspace.textDocuments] *)
  textDocuments : list TextDocument;
  (** the pattern the quick pick is accepted with; [Pending] when the user
      dismisses it *)
  quickPick : Outcome string;
  (** the chunks a readable stream delivers, be it [fs]'s or the
      [TextDocumentReadStream] of [src/util.ts] *)
  read : Readable -> Outcome (list string);
  (** opening the write stream of [fs.createWriteStream] *)
  openWrite : string -> Outcome unit;
  (** [statAsync(path).size], [moveAsync] and [unlinkAsync] of
      [src/util.ts] *)
  stat : string -> Outcome Z;
  move : string -> string -> Outcome unit;
  unlink : string -> Outcome unit;
  (** is there an active editor once the untitled file is open *)
  untitledEditor : bool;
  (** the chunks of the temporary file, read back 100 KiB at a time, and how
      the reading ends *)
  readTemp : string -> list string * Outcome unit;
  (** [editor.edit] on the n-th chunk *)
  edit : nat -> string -> Outcome unit;
  (** [workspace.openTextDocument] and [window.showTextDocument] *)
  openTextDocument : string -> Outcome unit;
  showTextDocument : string -> Outcome unit
}.

(** ** Computations: the host is read, the object is updated, calls are
    traced, and an exception or a promise left pending ends the run. *)

Definition M (S A : Type) : Type := Host -> S -> Outcome A * S * list Event.

Module M.

Definition ret {S A} (a : A) : M S A := fun _ s => (Returned a, s, []).

Definition bind {S A B} (m : M S A) (k : A -> M S B) : M S B :=
  fun h s =>
    match m h s with
    | (Returned a, s1, t1) =>
        let '(o, s2, t2) := k a h s1 in (o, s2, t1 ++ t2)
    | (Thrown e, s1, t1) => (Thrown e, s1, t1)
    | (Pending, s1, t1) => (Pending, s1, t1)
    end.

Definition throw {S A} (e : Error) : M S A := fun _ s => (Thrown e, s, []).

(** [try { m } catch (e) { handler e }] *)
Definition try_catch {S A} (m : M S A) (handler : Error -> M S A) : M S A :=
  fun h s =>
    match m h s with
    | (Thrown e, s1, t1) =>
        let '(o, s2, t2) := handler e h s1 in (o, s2, t1 ++ t2)
    | r => r
    end.

Definition ask {S} : M S Host := fun h s => (Returned h, s, []).
Definition get {S} : M S S := fun _ s => (Returned s, s, []).
Definition put {S} (s : S) : M S unit := fun _ _ => (Returned tt, s, []).
Definition emit {S} (e : Event) : M S unit := fun _ s => (Returned tt, s, [e]).

(** What the host answers, untraced. *)
Definition await {S A} (answer : Host -> Outcome A) : M S A :=
  fun h s => (answer h, s, []).

(** A call into the host: traced, then ended as the host says. *)
Definition call {S A} (e : Event) (answer : Host -> Outcome A) : M S A :=
  fun h s => (answer h, s, [e]).

Definition trace {S A} (r : Outcome A * S * list Event) : list Event := r.2.
Definition state {S A} (r : Outcome A * S * list Event) : S := r.1.2.
Definition outcome {S A} (r : Outcome A * S * list Event) : Outcome A := r.1.1.

End M.

Notation "x <- m ;; k" := (M.bind m (fun x => k))
  (at level 100, m at next level, right associativity).
Notation "m ;; k" := (M.bind m (fun _ => k))
  (at level 100, right associativity).

(** ** The filter stream

    [Filter.process] pipes the source through [new FilterStream(filterCallback)],
    a class of [src/util.ts]. *)

(** What a filter callback may answer: [string | boolean | undefined]. *)
Inductive CallbackResult :=
| RString (s : string)
| RBoolean (b : bool)
| RUndefined.

Definition of_option (o : option string) : CallbackResult :=
  match o with Some s => RString s | None => RUndefined end.

Module LineSplitter.

(** Modelled from the spec: the line splitter of [src/util.ts] (spec 4.2).
    [cut s] is the complete lines of [s], each with its terminator, and the
    partial line left after the last terminator. *)
Fixpoint cut (s : string) : list string * string :=
  match s with
  | "" => ([], "")
  | String c s' =>
      let '(ls, rest) := cut s' in
      if JS.ascii_eqb c JS.LF then (JS.NL :: ls, rest)
      else match ls with
           | [] => ([], String c rest)
           | l :: ls' => (String c l :: ls', rest)
           end
  end.

(** Modelled from the spec: one chunk arrives; the buffered partial line is
    put in front of it, the complete lines leave and the new partial line
    stays behind. *)
Definition transform (buffer chunk : string) : list string * string :=
  cut (buffer +:+ chunk).

(** Modelled from the spec: at the end of the input what is still buffered
    leaves as a last line. *)
Definition flush (buffer : string) : list string :=
  if bool_decide (buffer = "") then [] else [buffer].

(** Modelled from the spec: the chunks arrive one after the other, the
    partial line going from each to the next. *)
Fixpoint feed (buffer : string) (chunks : list string) : list string * string :=
  match chunks with
  | [] => ([], buffer)
  | chunk :: chunks' =>
      let '(ls, buffer') := transform buffer chunk in
      let '(ls', buffer'') := feed buffer' chunks' in
      (ls ++ ls', buffer'')
  end.

(** Modelled from the spec: the lines of a whole stream, the buffer being
    empty at first and flushed at the end. *)
Definition run (chunks : list string) : list string :=
  let '(ls, buffer) := feed "" chunks in ls ++ flush buffer.

End LineSplitter.

Module PredicateFilterTransform.

(** Modelled from the spec: a line parts into its content and its
    terminator (spec 4.3), the terminator being a final line feed or
    nothing. *)
Fixpoint strip (line : string) : string * string :=
  match line with
  | "" => ("", "")
  | String c rest =>
      match rest with
      | "" => if JS.ascii_eqb c JS.LF then ("", JS.NL) else (String c "", "")
      | _ => let '(content, term) := strip rest in (String c content, term)
      end
  end.

(** Modelled from the spec: which answers of the callback keep the line.
    The callbacks of this repository answer with the line for a match and
    with [undefined] otherwise. *)
Definition accepted (r : CallbackResult) : bool :=
  match r with
  | RString _ => true
  | RBoolean b => b
  | RUndefined => false
  end.

(** Modelled from the spec: the predicate sees the content, and a kept
    line leaves with its terminator put back. *)
Definition transform (filterCallback : string -> CallbackResult)
    (line : string) : option string :=
  let '(content, term) := strip line in
  if accepted (filterCallback content) then Some (content +:+ term) else None.

End PredicateFilterTransform.

Module FilterStream.

(** Modelled from the spec: [FilterStream] of [src/util.ts], the line
    splitter followed by the predicate transform. *)
Definition run (filterCallback : string -> CallbackResult)
    (chunks : list string) : list string :=
  omap (PredicateFilterTransform.transform filterCallback)
       (LineSplitter.run chunks).

End FilterStream.

(** ** [class Filter] *)

Module Filter.

Definition TAIL : string := "filterline".

Section Methods.

Context {S : Type}.
Variable fromUri : Uri.t.
Variable filterCallback : string -> CallbackResult.

Definition findOpenedDoc : M S (option TextDocument) :=
  h <- M.ask;;
  M.ret (List.find
           (fun el => bool_decide (Uri.path (uri el) = Uri.path fromUri))
           (textDocuments h)).

(** [new TextDocumentReadStream(doc, ...)] and [fs.createReadStream]:
    the stream is there at once, reading comes later. *)
Definition open (input : Readable) : M S Readable :=
  M.emit (CreateReadStream input);; M.ret input.

Definition createInputStream : M S Readable :=
  if bool_decide (Uri.scheme fromUri = "file") then
    doc <- findOpenedDoc;;
    match doc with
    | Some doc =>
        if isDirty doc then open (TextDocumentReadStream doc)
        else open (ReadStream (Uri.fsPath fromUri))
    | None => open (ReadStream (Uri.fsPath fromUri))
    end
  else
    doc <- findOpenedDoc;;
    match doc with
    | None =>
        M.emit (AppendLine "Unable to find open document for provided URI");;
        M.throw (Error_ "TextDocument not found")
    | Some doc => open (TextDocumentReadStream doc)
    end.

(** The name [process] gives the output file, before the directory is
    put in front. *)
Definition outName (h : Host) : string :=
  let ext := extname h (Uri.path fromUri) in
  let timestamp := JS.toString (getTime h) in
  let '(outBase, ext) :=
    if negb (bool_decide (Uri.scheme fromUri = "file")) then
      (Uri.path fromUri, if bool_decide (ext = "") then ".txt" else ext)
    else
      (JS.join "."
         (JS.slice_init
            (JS.split "."
               (JS.slice_last (JS.split (sep h) (Uri.fsPath fromUri))))),
       ext) in
  outBase +:+ "." +:+ TAIL +:+ "-" +:+ timestamp +:+ ext.

Definition outPath (h : Host) : string :=
  tmpdir h +:+ String (sep h) "" +:+ outName h.

(** [stream.pipeline]: the write stream opens, the source is read to its
    end through the filter stream, and what comes out is written. *)
Definition pipeline (input : Readable) (out : string) : M S unit :=
  M.call (CreateWriteStream out) (fun h => openWrite h out);;
  chunks <- M.await (fun h => read h input);;
  M.emit (WriteStreamEnd out (FilterStream.run filterCallback chunks)).

Definition process : M S Uri.t :=
  h <- M.ask;;
  let outPath := outPath h in
  input <- createInputStream;;
  pipeline input outPath;;
  M.ret (Uri_parse h ("file:" +:+ outPath)).

End Methods.

End Filter.

(** ** [class FilterLineBase] *)

Module FilterLineBase.

Definition NEW_PATTERN_CHOICE : string := "New pattern...".
Definition LARGE_MODE_THR : Z := 30 * 1024 * 1024.

(** The field of the base class, as every subclass carries it. *)
Class Fields (Self : Type) := {
  history : Self -> History;
  set_history : History -> Self -> Self
}.

Section Inherited.

Context {Self : Type} `{Fields Self}.

Definition appendLine (text : string) : M Self unit :=
  M.emit (AppendLine text).

Definition getHistory : M Self History :=
  self <- M.get;; M.ret (history self).

Definition updateHistory (hist : History) : M Self unit :=
  self <- M.get;;
  M.put (set_history hist self);;
  M.emit (GlobalStateUpdate hist).

Definition getHistoryMaxSize : M Self Z :=
  h <- M.ask;; M.ret (historySize h).

Definition addToHistory (key newEl : string) : M Self unit :=
  self <- M.get;;
  match history self !! key with
  | None =>
      appendLine ("History doesn't contain '" +:+ key +:+ "' field")
  | Some entries =>
      maxSz <- getHistoryMaxSize;;
      let entries :=
        if maxSz <=? Z.of_nat (length entries)
        then JS.splice_from maxSz entries else entries in
      match JS.array_indexOf entries newEl with
      | None =>
          let hist := <[key := newEl :: entries]> (history self) in
          M.put (set_history hist self);;
          M.emit (GlobalStateUpdate hist)
      | Some idx =>
          M.put (set_history
                   (<[key := newEl :: delete idx entries]> (history self))
                   self)
      end
  end.

(** The promise resolves with the pattern of the entry the user accepts;
    spreading a missing history entry is a [TypeError]. *)
Definition showHistoryPick (key : string) : M Self string :=
  self <- M.get;;
  match history self !! key with
  | None =>
      M.throw {| name := Some "TypeError";
                 message := "this.history[key] is not iterable" |}
  | Some entries => M.call (ShowQuickPick ("" :: entries)) quickPick
  end.

Definition getSaveAfterFilteringFlag : M Self bool :=
  h <- M.ask;; M.ret (saveAfterFiltering h).

Definition showInfo (text : string) : M Self unit :=
  appendLine text;; M.emit (ShowInformationMessage text).

Definition showError (text : string) : M Self unit :=
  appendLine text;; M.emit (ShowErrorMessage text).

Definition showWarning (text : string) : M Self unit :=
  appendLine text;; M.emit (ShowWarningMessage text).

Definition getSourceUri (fileUri : option Uri.t) : M Self (option Uri.t) :=
  match fileUri with
  | None =>
      h <- M.ask;;
      match activeTextEditor h with
      | None =>
          showError "No file selected or file is too large. For large files, use file's context menu. For more information please visit README";;
          M.ret None
      | Some document => M.ret (Some (uri document))
      end
  | Some fileUri => M.ret (Some fileUri)
  end.

(** The defaults of the base class. *)
Definition matchLine_base (self : Self) (line : string) : option string :=
  None.

Definition prepare_base (callback : bool -> M Self unit) : M Self unit :=
  callback true.

End Inherited.

(** The methods a subclass overrides. *)
Class Overrides (Self : Type) `{Fields Self} := {
  matchLine : Self -> string -> option string;
  prepare : (bool -> M Self unit) -> M Self unit
}.

Section Filtering.

Context {Self : Type} `{Overrides Self}.

(** [for await (const chunk of readStream)], the n-th chunk being
    inserted at the end of the document. *)
Fixpoint insertChunks (n : nat) (chunks : list string) : M Self unit :=
  match chunks with
  | [] => M.ret tt
  | chunk :: chunks' =>
      M.call (EditInsert chunk) (fun h => edit h n chunk);;
      insertChunks (S n) chunks'
  end.

Definition streamIntoEditor (tmpPath : Uri.t) : M Self unit :=
  h <- M.ask;;
  M.emit (ReadTemp (Uri.fsPath tmpPath));;
  let '(chunks, ending) := readTemp h (Uri.fsPath tmpPath) in
  insertChunks 0 chunks;;
  M.await (fun _ => ending).

Definition filter_ (uri : Uri.t) : M Self unit :=
  self <- M.get;;
  tmpPath <- Filter.process uri (fun line => of_option (matchLine self line));;
  size <- M.call (StatAsync (Uri.fsPath tmpPath))
                 (fun h => stat h (Uri.fsPath tmpPath));;
  let largeModeFlag := LARGE_MODE_THR <? size in
  saveFlag <- getSaveAfterFilteringFlag;;
  placed <-
    (if saveFlag then
       if negb (bool_decide (Uri.scheme uri = "file")) then
         showWarning "Don't know where to save file. Saved into temporary folder";;
         M.ret (tmpPath, false)
       else
         h <- M.ask;;
         let dstBase :=
           JS.slice_last (JS.split (sep h) (Uri.fsPath tmpPath)) in
         let dstPath :=
           Uri_parse h
             (JS.join (String (sep h) "")
                (JS.slice_init (JS.split (sep h) (Uri.fsPath uri)))
              +:+ String (sep h) "" +:+ dstBase) in
         M.try_catch
           (M.call (MoveAsync (Uri.fsPath tmpPath) (Uri.fsPath dstPath))
                   (fun h => move h (Uri.fsPath tmpPath) (Uri.fsPath dstPath));;
            M.ret (dstPath, false))
           (fun error =>
              showError "Error occurred on save file to origin folder. Saved into temporary folder";;
              M.ret (tmpPath, false))
     else
       if largeModeFlag then
         showWarning "Filtered content is larger then Visual Studio Code limitations. Saved into temporary folder";;
         M.ret (tmpPath, false)
       else
         M.emit NewUntitledFile;;
         h <- M.ask;;
         if negb (untitledEditor h) then
           M.throw (Error_ "Text Editor does not open")
         else
           processed <-
             M.try_catch
               (streamIntoEditor tmpPath;;
                M.call (UnlinkAsync (Uri.fsPath tmpPath))
                       (fun h => unlink h (Uri.fsPath tmpPath));;
                M.ret true)
               (fun e => M.ret (bool_decide (name e = Some "DISPOSED")));;
           M.ret (tmpPath, processed));;
  let '(dstPath, processed) := placed in
  (if negb processed then
     M.call (OpenTextDocument (Uri.fsPath dstPath))
            (fun h => openTextDocument h (Uri.fsPath dstPath));;
     M.call (ShowTextDocument (Uri.fsPath dstPath))
            (fun h => showTextDocument h (Uri.fsPath dstPath))
   else M.ret tt);;
  showInfo "Filtering completed :)".

Definition filter (filePath : option Uri.t) : M Self unit :=
  srcUri <- getSourceUri filePath;;
  match srcUri with
  | None => M.ret tt
  | Some srcUri =>
      appendLine ("will filter file: " +:+ Uri.path srcUri);;
      prepare (fun succeed =>
        appendLine ("Succeed " +:+ (if succeed then "true" else "false"));;
        if negb succeed then M.ret tt
        else filter_ srcUri)
  end.

End Filtering.

End FilterLineBase.

(** ** The substring filter ([src/filter_inputstring.ts]) *)

Module FilterLineByInputString.

Import FilterLineBase.

Record t := mk {
  history_ : History;
  _inputstring : option string;
  notcontain : bool
}.

Definition HIST_KEY : string := "inputStr".

#[global] Instance fields : Fields t := {|
  history := history_;
  set_history hist self :=
    {| history_ := hist;
       _inputstring := _inputstring self;
       notcontain := notcontain self |}
|}.

(** The constructor, given the history the global state holds. *)
Definition constructor (h : Host) (stored : History) : t * list Event :=
  let log := AppendLine ("Temp path: " +:+ tmpdir h) in
  match stored !! HIST_KEY with
  | None =>
      let hist := <[HIST_KEY := []]> stored in
      (mk hist None false, [log; GlobalStateUpdate hist])
  | Some _ => (mk stored None false, [log])
  end.

Definition prepare (callback : bool -> M t unit) : M t unit :=
  usrChoice <- showHistoryPick HIST_KEY;;
  if bool_decide (usrChoice = "") then
    appendLine "User input is an empty";;
    callback false
  else
    appendLine ("User input: " +:+ usrChoice);;
    addToHistory HIST_KEY usrChoice;;
    self <- M.get;;
    M.put {| history_ := history_ self;
             _inputstring := Some usrChoice;
             notcontain := notcontain self |};;
    callback true.

Definition matchLine (self : t) (line : string) : option string :=
  match _inputstring self with
  | None => None
  | Some inputstring =>
      if notcontain self then
        if JS.indexOf line inputstring =? -1 then Some line else None
      else
        if negb (JS.indexOf line inputstring =? -1) then Some line else None
  end.

#[global] Instance overrides : Overrides t := {|
  FilterLineBase.matchLine := matchLine;
  FilterLineBase.prepare := prepare
|}.

End FilterLineByInputString.

(** ** The regular-expression filter ([src/unnamed/part_001])

    [RegExp] is the engine's: its constructor and [String.prototype.match]
    are taken as they come, [compile] answering [None] where [new RegExp]
    throws, and [syntaxError] being the thrown error as a string. *)

Record RegExpEngine := {
  RegExp : Type;
  compile : string -> option RegExp;
  syntaxError : string -> string;
  matches : RegExp -> string -> bool
}.

Module FilterLineByInputRegex.

Import FilterLineBase.

Section Engine.

Variable E : RegExpEngine.

Record t := mk {
  history_ : History;
  _regex : option (RegExp E);
  notmatch : bool
}.

Definition HIST_KEY : string := "inputRegex".

#[global] Instance fields : Fields t := {|
  history := history_;
  set_history hist self :=
    {| history_ := hist; _regex := _regex self; notmatch := notmatch self |}
|}.

Definition constructor (h : Host) (stored : History) : t * list Event :=
  let log := AppendLine ("Temp path: " +:+ tmpdir h) in
  match stored !! HIST_KEY with
  | None =>
      let hist := <[HIST_KEY := []]> stored in
      (mk hist None false, [log; GlobalStateUpdate hist])
  | Some _ => (mk stored None false, [log])
  end.

Definition prepare (callback : bool -> M t unit) : M t unit :=
  usrChoice <- showHistoryPick HIST_KEY;;
  if bool_decide (usrChoice = "") then
    appendLine "User input is an empty";;
    callback false
  else
    match compile E usrChoice with
    | None =>
        appendLine ("Regex is incorrect: " +:+ syntaxError E usrChoice);;
        showError ("Regex incorrect :" +:+ syntaxError E usrChoice);;
        callback false
    | Some regex =>
        self <- M.get;;
        M.put {| history_ := history_ self;
                 _regex := Some regex;
                 notmatch := notmatch self |};;
        addToHistory HIST_KEY usrChoice;;
        callback true
    end.

Definition matchLine (self : t) (line : string) : option string :=
  match _regex self with
  | None => None
  | Some regex =>
      if notmatch self then
        if negb (matches E regex line) then Some line else None
      else
        if matches E regex line then Some line else None
  end.

#[global] Instance overrides : Overrides t := {|
  FilterLineBase.matchLine := matchLine;
  FilterLineBase.prepare := prepare
|}.

End Engine.

Arguments mk {E}.
Arguments history_ {E}.
Arguments _regex {E}.
Arguments notmatch {E}.
Arguments prepare {E}.
Arguments matchLine {E}.

End FilterLineByInputRegex.

(** [lacks c s]: the character [c] does not occur in [s]. *)
Fixpoint lacks (c : ascii) (s : string) : bool :=
  match s with
  | "" => true
  | String d s' => negb (JS.ascii_eqb d c) && lacks c s'
  end.

(** ** Lines

    [no_LF s]: there is no line feed in [s]. *)
Fixpoint no_LF (s : string) : bool :=
  match s with
  | "" => true
  | String c s' => negb (JS.ascii_eqb c JS.LF) && no_LF s'
  end.

(** The lines of a text: every line but the last ends with the one line feed
    it holds; the last may lack it, and is then not empty. *)
Inductive Lines : list string -> Prop :=
| Lines_nil : Lines []
| Lines_last (l : string) : l <> "" -> no_LF l = true -> Lines [l]
| Lines_cons (c : string) (ls : list string) :
    no_LF c = true -> Lines ls -> Lines ((c +:+ JS.NL) :: ls).

Definition terminated (l : string) : Prop :=
  exists c, no_LF c = true /\ l = c +:+ JS.NL.

(** The content of a line: the line without its terminator. *)
Definition content (line : string) : string :=
  (PredicateFilterTransform.strip line).1.

(** ** Events by kind *)

(** The stream pipeline at work: a stream is opened or written. *)
Definition pipeline_event (e : Event) : bool :=
  match e with
  | CreateReadStream _ | CreateWriteStream _ | WriteStreamEnd _ _ => true
  | _ => false
  end.

(** The filtered text on its way into an editor buffer. *)
Definition editor_event (e : Event) : bool :=
  match e with
  | NewUntitledFile | ReadTemp _ | EditInsert _ => true
  | _ => false
  end.

(** The temporary file moved away or deleted. *)
Definition removal_event (e : Event) : bool :=
  match e with
  | MoveAsync _ _ | UnlinkAsync _ => true
  | _ => false
  end.

Definition warning_event (e : Event) : bool :=
  match e with
  | ShowWarningMessage _ => true
  | _ => false
  end.

(** ** What [filter_] tells the user *)

Definition LARGE_WARNING : string :=
  "Filtered content is larger then Visual Studio Code limitations. Saved into temporary folder".
Definition MOVE_ERROR : string :=
  "Error occurred on save file to origin folder. Saved into temporary folder".
Definition COMPLETED : string := "Filtering completed :)".

(** Where [filter_] moves the output to: the folder of the source, under the
    name of the temporary file. *)
Definition adjacent (h : Host) (uri tmpPath : Uri.t) : Uri.t :=
  Uri_parse h
    (JS.join (String (sep h) "")
       (JS.slice_init (JS.split (sep h) (Uri.fsPath uri)))
     +:+ String (sep h) ""
     +:+ JS.slice_last (JS.split (sep h) (Uri.fsPath tmpPath))).

(** The document [findOpenedDoc] answers with: the first of
    [workspace.textDocuments] that has the path of the source. *)
Definition openedDoc (h : Host) (fromUri : Uri.t) : option TextDocument :=
  List.find (fun el => bool_decide (Uri.path (uri el) = Uri.path fromUri))
            (textDocuments h).

(** ** A host to run the filters on *)

Module Example.

(** [path.extname] for the paths of this host: the last dot of the last
    segment starts the extension, unless the segment starts there. *)
Definition posix_extname (p : string) : string :=
  let base := JS.slice_last (JS.split "/" p) in
  let pieces := JS.split "." base in
  let stem := JS.join "." (JS.slice_init pieces) in
  if bool_decide (stem = "") || bool_decide (base = "..") then ""
  else "." +:+ JS.slice_last pieces.

(** [Uri.parse] for the values this host is asked about: [file:] followed
    by a POSIX path that holds no [?], [#] or percent escape, and such a
    path alone, which it reads as a [file] resource. *)
Definition posix_parse (value : string) : Uri.t :=
  let p := if String.prefix "file:" value
           then String.substring 5 (String.length value - 5) value
           else value in
  {| Uri.scheme := "file"; Uri.path := p; Uri.fsPath := p |}.

Definition line (s : string) : string := s +:+ JS.NL.

Definition fruit : list string := [line "apple"; line "banana"; line "grape"].

Definition host (save : bool) (size : Z) (pick : Outcome string)
    (moved : Outcome unit) (documents : list TextDocument)
    (chunks : list string) : Host := {|
  saveAfterFiltering := save;
  historySize := 10;
  tmpdir := "/tmp";
  sep := "/";
  extname := posix_extname;
  getTime := 1700000000000;
  Uri_parse := posix_parse;
  activeTextEditor := None;
  textDocuments := documents;
  quickPick := pick;
  read := fun _ => Returned chunks;
  openWrite := fun _ => Returned tt;
  stat := fun _ => Returned size;
  move := fun _ _ => moved;
  unlink := fun _ => Returned tt;
  untitledEditor := true;
  readTemp := fun _ => ([line "banana"], Returned tt);
  edit := fun _ _ => Returned tt;
  openTextDocument := fun _ => Returned tt;
  showTextDocument := fun _ => Returned tt
|}.

Definition file (p : string) : Uri.t :=
  {| Uri.scheme := "file"; Uri.path := p; Uri.fsPath := p |}.

Definition untitled (p : string) : Uri.t :=
  {| Uri.scheme := "untitled"; Uri.path := p; Uri.fsPath := p |}.

Definition EACCES : Error :=
  {| name := Some "Error"; message := "EACCES: permission denied" |}.

(** A toy engine: a pattern compiles when its parentheses are balanced,
    and then matches the lines that hold it. *)
Fixpoint balanced (depth : nat) (p : string) : bool :=
  match p with
  | "" => bool_decide (depth = 0%nat)
  | String c p' =>
      if JS.ascii_eqb c "("%char then balanced (S depth) p'
      else if JS.ascii_eqb c ")"%char then
        match depth with
        | O => false
        | S d => balanced d p'
        end
      else balanced depth p'
  end.

Definition engine : RegExpEngine := {|
  RegExp := string;
  compile p := if balanced 0 p then Some p else None;
  syntaxError p := "SyntaxError: Invalid regular expression: /" +:+ p +:+ "/";
  matches r l := negb (JS.indexOf l r =? -1)
|}.

Definition stored : History := {[ "inputStr" := ["an"]; "inputRegex" := [] ]}.

Definition byString (notcontain : bool) : FilterLineByInputString.t :=
  FilterLineByInputString.mk stored None notcontain.

Definition byRegex (notmatch : bool) : FilterLineByInputRegex.t engine :=
  FilterLineByInputRegex.mk stored None notmatch.

End Example.

(** ** The history and the quick pick *)

(** What [addToHistory] keeps of the entries of a key before the new
    pattern goes in front: [if (length >= maxSz) splice(maxSz)]. *)
Definition kept (maxSz : Z) (entries : list string) : list string :=
  if maxSz <=? Z.of_nat (length entries)
  then JS.splice_from maxSz entries else entries.

Module QuickPick.

(** The items [showHistoryPick] opens the quick pick with. *)
Definition initial (entries : list string) : list string := "" :: entries.

(** The handler of [onDidChangeValue]: a typed value the history does not
    hold goes in front of the history; otherwise the items stay. *)
Definition onDidChangeValue (entries : list string) (items : list string)
    (value : string) : list string :=
  match JS.array_indexOf entries value with
  | None => value :: entries
  | Some _ => items
  end.

(** The items after the user has typed [values], one change after the
    other. *)
Definition typed (entries : list string) (values : list string) : list string :=
  foldl (onDidChangeValue entries) (initial entries) values.

End QuickPick.

(** [line.indexOf(pat) !== -1] *)
Definition includes (line pat : string) : bool :=
  negb (JS.indexOf line pat =? -1).

Definition NO_FOLDER : string :=
  "Don't know where to save file. Saved into temporary folder".

(** ** More hosts *)

Module Tweak.

(** The host [h], answering [edit], [unlink], the untitled editor, [stat]
    and the reading of the temporary file as given. *)
Definition host (h : Host) (edits : nat -> string -> Outcome unit)
    (unlinked : Outcome unit) (editor : bool) (size : Outcome Z)
    (temp : list string * Outcome unit) : Host := {|
  saveAfterFiltering := saveAfterFiltering h;
  historySize := historySize h;
  tmpdir := tmpdir h;
  sep := sep h;
  extname := extname h;
  getTime := getTime h;
  Uri_parse := Uri_parse h;
  activeTextEditor := activeTextEditor h;
  textDocuments := textDocuments h;
  quickPick := quickPick h;
  read := read h;
  openWrite := openWrite h;
  stat := fun _ => size;
  move := move h;
  unlink := fun _ => unlinked;
  untitledEditor := editor;
  readTemp := fun _ => temp;
  edit := edits;
  openTextDocument := openTextDocument h;
  showTextDocument := showTextDocument h
|}.

(** The host [h] with a workspace that opens no document: [openTextDocument]
    throws [e]. *)
Definition unopenable (h : Host) (e : Error) : Host := {|
  saveAfterFiltering := saveAfterFiltering h;
  historySize := historySize h;
  tmpdir := tmpdir h;
  sep := sep h;
  extname := extname h;
  getTime := getTime h;
  Uri_parse := Uri_parse h;
  activeTextEditor := activeTextEditor h;
  textDocuments := textDocuments h;
  quickPick := quickPick h;
  read := read h;
  openWrite := openWrite h;
  stat := stat h;
  move := move h;
  unlink := unlink h;
  untitledEditor := untitledEditor h;
  readTemp := readTemp h;
  edit := edit h;
  openTextDocument := fun _ => Thrown e;
  showTextDocument := showTextDocument h
|}.

Definition CANCELED : Error :=
  {| name := Some "Canceled"; message := "Canceled" |}.

(** The resource the git extension opens for the committed side of a diff:
    the scheme is [git], the path is the path of the file. *)
Definition git (p : string) : Uri.t :=
  {| Uri.scheme := "git"; Uri.path := p; Uri.fsPath := p |}.

(** A file shown in a diff editor and edited there: the committed side, then
    the file itself with changes that are not saved. *)
Definition diffed (p : string) : list TextDocument :=
  [{| uri := git p; isDirty := false |};
   {| uri := Example.file p; isDirty := true |}].

Definition DISPOSED : Error :=
  {| name := Some "DISPOSED"; message := "TextEditor#edit not possible on closed editors" |}.

(** Every edit goes through but the one numbered [k], which throws [e]. *)
Definition failing (k : nat) (e : Error) (n : nat) (chunk : string) : Outcome unit :=
  if bool_decide (n = k) then Thrown e else Returned tt.

Definition plain : Host :=
  Example.host false 5 (Returned "an") (Returned tt) [] Example.fruit.

Definition banana : FilterLineByInputString.t :=
  FilterLineByInputString.mk Example.stored (Some "an") false.

Definition untitled : TextDocument :=
  {| uri := Example.untitled "Untitled-1"; isDirty := true |}.

Definition written : list Event :=
  [CreateReadStream (ReadStream "/var/log/sys.log");
   CreateWriteStream "/tmp/sys.filterline-1700000000000.log";
   WriteStreamEnd "/tmp/sys.filterline-1700000000000.log"
     [Example.line "banana"]].

End Tweak.

(** * Properties *)

(** ** Strings *)

Section Strings.

Lemma app_String (c : ascii) (s t : string) :
  String c s +:+ t = String c (s +:+ t).
Proof. reflexivity. Qed.

Lemma app_empty_l (s : string) : "" +:+ s = s.
Proof. reflexivity. Qed.

Lemma app_empty_r (s : string) : s +:+ "" = s.
Proof. induction s as [|c s IH]; [done|]. by rewrite app_String, IH. Qed.

Lemma app_assoc' (s t u : string) : (s +:+ t) +:+ u = s +:+ t +:+ u.
Proof. induction s as [|c s IH]; [done|]. by rewrite !app_String, IH. Qed.

Lemma concat_cons (x : string) (l : list string) :
  JS.concat (x :: l) = x +:+ JS.concat l.
Proof. reflexivity. Qed.

Lemma concat_app (l1 l2 : list string) :
  JS.concat (l1 ++ l2) = JS.concat l1 +:+ JS.concat l2.
Proof.
  induction l1 as [|x l1 IH]; [done|].
  by rewrite <- app_comm_cons, !concat_cons, IH, app_assoc'.
Qed.

Lemma ascii_eqb_true (a b : ascii) : JS.ascii_eqb a b = true <-> a = b.
Proof. unfold JS.ascii_eqb. by rewrite bool_decide_eq_true. Qed.

Lemma ascii_eqb_false (a b : ascii) : JS.ascii_eqb a b = false <-> a <> b.
Proof. unfold JS.ascii_eqb. by rewrite bool_decide_eq_false. Qed.

Lemma no_LF_app (s t : string) : no_LF (s +:+ t) = no_LF s && no_LF t.
Proof.
  induction s as [|c s IH]; [done|].
  rewrite app_String. simpl. rewrite IH. by rewrite andb_assoc.
Qed.

Lemma prefix_iff (p s : string) :
  String.prefix p s = true <-> exists post, s = p +:+ post.
Proof.
  revert s. induction p as [|c p IH]; intros s.
  - split; [intros _; by exists s | intros _; by destruct s].
  - destruct s as [|d s]; simpl.
    + split; [done | intros [post ?]; discriminate].
    + destruct (ascii_dec c d) as [->|Hne].
      * rewrite IH. split; intros [post Hp]; exists post.
        -- by rewrite app_String, <- Hp.
        -- rewrite app_String in Hp. by injection Hp.
      * split; [done|]. intros [post Hp]. rewrite app_String in Hp.
        injection Hp as Hd _. by destruct Hne.
Qed.

Lemma contains_empty (pat : string) : contains "" pat <-> pat = "".
Proof.
  split.
  - intros (pre & post & H). destruct pre; [|discriminate].
    destruct pat; [done | discriminate].
  - intros ->. by exists "", "".
Qed.

Lemma contains_String (c : ascii) (s pat : string) :
  contains (String c s) pat <->
  String.prefix pat (String c s) = true \/ contains s pat.
Proof.
  rewrite prefix_iff. split.
  - intros (pre & post & H). destruct pre as [|d pre].
    + left. by exists post.
    + right. rewrite app_String in H. injection H as _ H.
      by exists pre, post.
  - intros [[post H] | (pre & post & H)].
    + by exists "", post.
    + exists (String c pre), post. by rewrite app_String, <- H.
Qed.

Lemma indexOf_from_spec (i : Z) (s pat : string) :
  0 <= i ->
  (contains s pat -> i <= JS.indexOf_from i pat s) /\
  (~ contains s pat -> JS.indexOf_from i pat s = -1).
Proof.
  revert i. induction s as [|c s IH]; intros i Hi.
  - cbn [JS.indexOf_from]. destruct (String.prefix pat "") eqn:Hp.
    + split; [lia|]. intros Hn. destruct Hn. exists "". by apply prefix_iff.
    + split; [|done]. intros Hc. exfalso.
      destruct Hc as (pre & post & H). destruct pre; [|discriminate].
      assert (String.prefix pat "" = true) as Ht by (apply prefix_iff; eauto).
      congruence.
  - cbn [JS.indexOf_from]. destruct (String.prefix pat (String c s)) eqn:Hp.
    + split; [lia|]. intros Hn. destruct Hn.
      apply contains_String. by left.
    + destruct (IH (i + 1)) as [IH1 IH2]; [lia|]. split.
      * intros [Hc | Hc]%contains_String; [congruence|].
        specialize (IH1 Hc). lia.
      * intros Hn. apply IH2. intros Hc. apply Hn, contains_String. by right.
Qed.

(** [indexOf] answers [-1] exactly on the lines without the pattern. *)
Lemma indexOf_minus_one (s pat : string) :
  JS.indexOf s pat = -1 <-> ~ contains s pat.
Proof.
  unfold JS.indexOf. destruct (indexOf_from_spec 0 s pat) as [H1 H2]; [lia|].
  split; [|done]. intros Heq Hc. specialize (H1 Hc). lia.
Qed.

End Strings.

(** ** The line splitter *)

Section Splitter.

Import LineSplitter.

Lemma cut_String (c : ascii) (s : string) :
  cut (String c s) =
  if JS.ascii_eqb c JS.LF then (JS.NL :: (cut s).1, (cut s).2)
  else match (cut s).1 with
       | [] => ([], String c (cut s).2)
       | l :: ls' => (String c l :: ls', (cut s).2)
       end.
Proof. cbn [cut]. by destruct (cut s) as [ls rest]. Qed.

Lemma cut_app (a b : string) :
  cut (a +:+ b) = ((cut a).1 ++ (cut ((cut a).2 +:+ b)).1,
                   (cut ((cut a).2 +:+ b)).2).
Proof.
  induction a as [|c a IH].
  - rewrite app_empty_l. cbn [cut fst snd]. rewrite app_empty_l.
    by destruct (cut b).
  - rewrite app_String, !cut_String, IH.
    destruct (JS.ascii_eqb c JS.LF) eqn:Hc; [done|]. cbn [fst snd].
    destruct (cut a) as [[|l la] ra]; cbn [fst snd app]; [|done].
    rewrite app_String, cut_String, Hc.
    by destruct (cut (ra +:+ b)) as [[|l lb] rb].
Qed.

Lemma cut_rest_no_LF (s : string) : no_LF (cut s).2 = true.
Proof.
  induction s as [|c s IH]; [done|]. rewrite cut_String.
  destruct (JS.ascii_eqb c JS.LF) eqn:Hc; [done|].
  destruct (cut s) as [[|l ls] rest]; cbn [fst snd] in *; [|done].
  simpl. by rewrite Hc, IH.
Qed.

Lemma cut_no_LF (s : string) : no_LF s = true -> cut s = ([], s).
Proof.
  induction s as [|c s IH]; [done|]. simpl no_LF.
  intros [Hc Hs]%andb_true_iff. rewrite cut_String, (IH Hs).
  apply negb_true_iff in Hc. by rewrite Hc.
Qed.

Lemma cut_line (c s : string) :
  no_LF c = true ->
  cut (c +:+ JS.NL +:+ s) = ((c +:+ JS.NL) :: (cut s).1, (cut s).2).
Proof.
  induction c as [|a c IH].
  - intros _. rewrite app_empty_l. unfold JS.NL at 1.
    rewrite app_String, app_empty_l, cut_String.
    by rewrite (proj2 (ascii_eqb_true _ _) eq_refl).
  - simpl no_LF. intros [Ha Hc]%andb_true_iff. apply negb_true_iff in Ha.
    rewrite !app_String, cut_String, Ha, (IH Hc). done.
Qed.

(** The complete lines of a text, then its partial last line, make up the
    text again. *)
Lemma cut_concat (s : string) : JS.concat (cut s).1 +:+ (cut s).2 = s.
Proof.
  induction s as [|c s IH]; [done|]. rewrite cut_String.
  destruct (JS.ascii_eqb c JS.LF) eqn:Hc.
  - apply ascii_eqb_true in Hc as ->. cbn [fst snd].
    rewrite concat_cons, app_assoc', IH. done.
  - destruct (cut s) as [[|l ls] rest]; cbn [fst snd] in *.
    + by rewrite <- IH.
    + rewrite concat_cons in *. rewrite !app_String. by rewrite IH.
Qed.

Lemma feed_cut (buffer : string) (chunks : list string) :
  no_LF buffer = true ->
  feed buffer chunks = cut (buffer +:+ JS.concat chunks).
Proof.
  revert buffer. induction chunks as [|chunk chunks IH]; intros buffer Hb.
  - cbn [feed JS.concat foldr]. by rewrite app_empty_r, cut_no_LF.
  - cbn [feed]. unfold transform.
    rewrite concat_cons, <- app_assoc', (cut_app (buffer +:+ chunk)).
    destruct (cut (buffer +:+ chunk)) as [ls buffer'] eqn:Hcut.
    assert (no_LF buffer' = true) as Hb'.
    { pose proof (cut_rest_no_LF (buffer +:+ chunk)) as H.
      by rewrite Hcut in H. }
    rewrite (IH _ Hb'). cbn [fst snd].
    by destruct (cut (buffer' +:+ JS.concat chunks)).
Qed.

(** Whatever the chunks, the splitter answers as on the whole text. *)
Lemma run_cut (chunks : list string) :
  run chunks =
  (cut (JS.concat chunks)).1 ++ flush (cut (JS.concat chunks)).2.
Proof.
  unfold run. rewrite feed_cut by done. rewrite app_empty_l.
  by destruct (cut (JS.concat chunks)).
Qed.

Lemma Lines_cut (ls : list string) :
  Lines ls ->
  (cut (JS.concat ls)).1 ++ flush (cut (JS.concat ls)).2 = ls.
Proof.
  induction 1 as [|l Hne Hl|c ls Hc Hls IH].
  - done.
  - cbn [JS.concat foldr]. rewrite app_empty_r, cut_no_LF by done.
    cbn [fst snd app]. unfold flush. by rewrite bool_decide_eq_false_2.
  - rewrite concat_cons, app_assoc', cut_line by done.
    cbn [fst snd]. by rewrite <- app_comm_cons, IH.
Qed.

(** The lines of a text are what the splitter answers on it, however the
    text reaches it. *)
Lemma run_Lines (chunks ls : list string) :
  Lines ls -> JS.concat chunks = JS.concat ls -> run chunks = ls.
Proof. intros Hls Heq. rewrite run_cut, Heq. by apply Lines_cut. Qed.

Lemma cut_terminated (s : string) : Forall terminated (cut s).1.
Proof.
  induction s as [|c s IH]; [by constructor|]. rewrite cut_String.
  destruct (JS.ascii_eqb c JS.LF) eqn:Hc.
  - constructor; [|done]. by exists "".
  - destruct (cut s) as [[|l ls] rest]; cbn [fst snd] in *; [done|].
    inversion IH as [|? ? (c0 & Hc0 & ->) Hls]; subst.
    constructor; [|done]. exists (String c c0). split; [|done].
    simpl. by rewrite Hc, Hc0.
Qed.

Lemma Lines_flush (ls : list string) (rest : string) :
  Forall terminated ls -> no_LF rest = true -> Lines (ls ++ flush rest).
Proof.
  intros Hls Hrest. induction Hls as [|l ls (c & Hc & ->) _ IH].
  - unfold flush. case_bool_decide; by constructor.
  - rewrite <- app_comm_cons. by constructor.
Qed.

(** What the splitter answers are the lines of the text it was given. *)
Lemma Lines_run (chunks : list string) : Lines (run chunks).
Proof.
  rewrite run_cut.
  apply Lines_flush; [apply cut_terminated | apply cut_rest_no_LF].
Qed.

Lemma concat_run (chunks : list string) :
  JS.concat (run chunks) = JS.concat chunks.
Proof.
  rewrite run_cut, concat_app. rewrite <- (cut_concat (JS.concat chunks)) at 3.
  f_equal. unfold flush. case_bool_decide as H; [by rewrite H|].
  cbn [JS.concat foldr]. by rewrite app_empty_r.
Qed.

Lemma cut_rest_tail (body tail : string) :
  body = "" \/ (exists b, body = b +:+ JS.NL) ->
  no_LF tail = true ->
  (cut (body +:+ tail)).2 = tail.
Proof.
  intros Hbody Htail.
  assert ((cut body).2 = "") as Hrest.
  { destruct Hbody as [->|[b ->]]; [done|].
    rewrite cut_app. cbn [snd].
    rewrite <- (app_empty_r JS.NL), cut_line; [done|apply cut_rest_no_LF]. }
  rewrite cut_app, Hrest, app_empty_l. cbn [snd]. by rewrite cut_no_LF.
Qed.

End Splitter.

(** ** The predicate transform *)

Section Transform.

Import PredicateFilterTransform.

Lemma strip_String (c : ascii) (rest : string) :
  strip (String c rest) =
  match rest with
  | "" => if JS.ascii_eqb c JS.LF then ("", JS.NL) else (String c "", "")
  | _ => (String c (strip rest).1, (strip rest).2)
  end.
Proof. cbn [strip]. destruct rest; [done|]. by destruct (strip _). Qed.

Lemma strip_app (line : string) : (strip line).1 +:+ (strip line).2 = line.
Proof.
  induction line as [|c rest IH]; [done|]. rewrite strip_String.
  destruct rest as [|d rest].
  - destruct (JS.ascii_eqb c JS.LF) eqn:Hc; [|done].
    by apply ascii_eqb_true in Hc as ->.
  - cbn [fst snd]. by rewrite app_String, IH.
Qed.

Lemma strip_terminated (c : string) : strip (c +:+ JS.NL) = (c, JS.NL).
Proof.
  induction c as [|a c IH]; [done|].
  rewrite app_String, strip_String, IH.
  by destruct c.
Qed.

Lemma strip_no_LF (l : string) : no_LF l = true -> strip l = (l, "").
Proof.
  induction l as [|a l IH]; [done|]. simpl no_LF.
  intros [Ha Hl]%andb_true_iff. apply negb_true_iff in Ha.
  rewrite strip_String, (IH Hl), Ha. by destruct l.
Qed.

Lemma transform_keep (filterCallback : string -> CallbackResult)
    (line : string) :
  transform filterCallback line =
  if accepted (filterCallback (content line)) then Some line else None.
Proof.
  unfold transform, content. pose proof (strip_app line) as H.
  destruct (strip line) as [c t]. cbn [fst snd] in *. by rewrite H.
Qed.

Lemma run_filter (filterCallback : string -> CallbackResult)
    (chunks : list string) :
  FilterStream.run filterCallback chunks =
  List.filter (fun line => accepted (filterCallback (content line)))
              (LineSplitter.run chunks).
Proof.
  unfold FilterStream.run.
  induction (LineSplitter.run chunks) as [|l ls IH]; [done|].
  cbn [omap list_omap List.filter]. rewrite transform_keep, IH.
  by destruct (accepted _).
Qed.

Lemma Lines_filter (p : string -> bool) (ls : list string) :
  Lines ls -> Lines (List.filter p ls).
Proof.
  induction 1 as [|l Hne Hl|c ls Hc Hls IH]; cbn [List.filter].
  - constructor.
  - destruct (p l); by constructor.
  - destruct (p _); [by constructor | done].
Qed.

Lemma filter_filter (p : string -> bool) (ls : list string) :
  List.filter p (List.filter p ls) = List.filter p ls.
Proof.
  induction ls as [|l ls IH]; [done|]. cbn [List.filter].
  destruct (p l) eqn:Hp; [|done]. cbn [List.filter]. by rewrite Hp, IH.
Qed.

Lemma filter_sublist (p : string -> bool) (ls : list string) :
  sublist (List.filter p ls) ls.
Proof.
  induction ls as [|l ls IH]; [done|]. cbn [List.filter].
  destruct (p l); by constructor.
Qed.

End Transform.

(** ** The pipeline of [Filter.process] *)

Section Process.

Context {S : Type}.
Variables (fromUri : Uri.t) (filterCallback : string -> CallbackResult).
Variables (h : Host) (self : S).

Lemma findOpenedDoc_run :
  Filter.findOpenedDoc fromUri h self =
  (Returned (List.find
               (fun el => bool_decide (Uri.path (uri el) = Uri.path fromUri))
               (textDocuments h)), self, []).
Proof. reflexivity. Qed.

(** A stream that was answered was opened, and nothing else happened. *)
Lemma createInputStream_returned (input : Readable) :
  M.outcome (Filter.createInputStream fromUri h self) = Returned input ->
  Filter.createInputStream fromUri h self =
  (Returned input, self, [CreateReadStream input]).
Proof.
  unfold Filter.createInputStream, M.outcome.
  destruct (bool_decide (Uri.scheme fromUri = "file"));
    unfold M.bind; rewrite findOpenedDoc_run;
    destruct (List.find _ _) as [doc|]; cbn.
  - destruct (isDirty doc); cbn; by intros [= ->].
  - by intros [= ->].
  - by intros [= ->].
  - done.
Qed.

End Process.

(** C1.  Whatever the chunks the source arrives in, what [Filter.process]
    writes to its output file is the lines of the source on which the
    callback says yes, in the order of the source; and these are the lines
    [FilterStream] lets through. *)
Theorem process_writes_matching_lines {S : Type} (h : Host) (self : S)
    (fromUri : Uri.t) (filterCallback : string -> CallbackResult)
    (input : Readable) (chunks ls : list string) :
  M.outcome (Filter.createInputStream fromUri h self) = Returned input ->
  openWrite h (Filter.outPath fromUri h) = Returned tt ->
  read h input = Returned chunks ->
  Lines ls ->
  JS.concat chunks = JS.concat ls ->
  let kept :=
    List.filter
      (fun line => PredicateFilterTransform.accepted (filterCallback (content line)))
      ls in
  FilterStream.run filterCallback chunks = kept /\
  sublist kept ls /\
  Filter.process fromUri filterCallback h self =
  (Returned (Uri_parse h ("file:" +:+ Filter.outPath fromUri h)), self,
   [CreateReadStream input;
    CreateWriteStream (Filter.outPath fromUri h);
    WriteStreamEnd (Filter.outPath fromUri h) kept]).
Proof.
  intros Hin Hopen Hread Hls Hcat kept.
  assert (FilterStream.run filterCallback chunks = kept) as Hrun.
  { rewrite run_filter. by rewrite (run_Lines chunks ls). }
  split; [done|]. split; [apply filter_sublist|].
  unfold Filter.process, Filter.pipeline, M.bind, M.ask, M.call, M.await,
    M.emit, M.ret.
  rewrite (createInputStream_returned _ _ _ _ Hin), Hopen, Hread, Hrun.
  reflexivity.
Qed.

Lemma process_writes_matching_lines_witness :
  let h := Example.host false 5 (Returned "an") (Returned tt) []
             ["ap"; "ple" +:+ JS.NL +:+ "ban"; "ana" +:+ JS.NL +:+ "grape" +:+ JS.NL] in
  let self := Example.byString false in
  let fromUri := Example.file "/var/log/sys.log" in
  let filterCallback :=
    fun line => of_option
      (FilterLineByInputString.matchLine
         (FilterLineByInputString.mk Example.stored (Some "an") false) line) in
  FilterStream.run filterCallback
    ["ap"; "ple" +:+ JS.NL +:+ "ban"; "ana" +:+ JS.NL +:+ "grape" +:+ JS.NL] =
  [Example.line "banana"] /\
  sublist [Example.line "banana"] Example.fruit /\
  Filter.process fromUri filterCallback h self =
  (Returned (Example.file "/tmp/sys.filterline-1700000000000.log"), self,
   [CreateReadStream (ReadStream "/var/log/sys.log");
    CreateWriteStream "/tmp/sys.filterline-1700000000000.log";
    WriteStreamEnd "/tmp/sys.filterline-1700000000000.log"
      [Example.line "banana"]]).
Proof.
  intros h self fromUri filterCallback.
  apply (process_writes_matching_lines h self fromUri filterCallback
           (ReadStream "/var/log/sys.log") _ Example.fruit).
  - reflexivity.
  - reflexivity.
  - reflexivity.
  - apply (Lines_cons "apple"); [reflexivity|].
    apply (Lines_cons "banana"); [reflexivity|].
    apply (Lines_cons "grape"); [reflexivity|].
    apply Lines_nil.
  - reflexivity.
Defined.

(** C2.  Two ways of cutting one text into chunks give the line splitter the
    same lines; and a text that ends in a partial line, with no terminator,
    has that partial line as its last line. *)
Theorem splitter_chunk_independence (chunks1 chunks2 : list string) :
  JS.concat chunks1 = JS.concat chunks2 ->
  LineSplitter.run chunks1 = LineSplitter.run chunks2 /\
  (forall body tail : string,
     JS.concat chunks1 = body +:+ tail ->
     body = "" \/ (exists b, body = b +:+ JS.NL) ->
     no_LF tail = true ->
     tail <> "" ->
     (LineSplitter.feed "" chunks1).2 = tail /\
     last (LineSplitter.run chunks1) = Some tail).
Proof.
  intros Heq. split; [by rewrite !run_cut, Heq|].
  intros body tail Htext Hbody Htail Hne.
  rewrite run_cut, feed_cut, app_empty_l, Htext by done.
  rewrite cut_rest_tail by done. split; [done|].
  unfold LineSplitter.flush. rewrite bool_decide_eq_false_2 by done.
  by rewrite last_snoc.
Qed.

Lemma splitter_chunk_independence_witness :
  LineSplitter.run ["ab"; "c" +:+ JS.NL +:+ "d"] =
  LineSplitter.run ["abc" +:+ JS.NL; "d"] /\
  (forall body tail : string,
     JS.concat ["ab"; "c" +:+ JS.NL +:+ "d"] = body +:+ tail ->
     body = "" \/ (exists b, body = b +:+ JS.NL) ->
     no_LF tail = true ->
     tail <> "" ->
     (LineSplitter.feed "" ["ab"; "c" +:+ JS.NL +:+ "d"]).2 = tail /\
     last (LineSplitter.run ["ab"; "c" +:+ JS.NL +:+ "d"]) = Some tail).
Proof.
  apply (splitter_chunk_independence
           ["ab"; "c" +:+ JS.NL +:+ "d"] ["abc" +:+ JS.NL; "d"]).
  reflexivity.
Defined.

(** C9.  Filtering what a filter run has written, with the same callback,
    writes the same lines again: no line is removed on the second pass. *)
Theorem filter_idempotent (filterCallback : string -> CallbackResult)
    (chunks chunks' : list string) :
  JS.concat chunks' = JS.concat (FilterStream.run filterCallback chunks) ->
  FilterStream.run filterCallback chunks' =
  FilterStream.run filterCallback chunks.
Proof.
  intros Heq. rewrite (run_filter _ chunks').
  rewrite (run_Lines chunks' (FilterStream.run filterCallback chunks)); [|..|done].
  - rewrite run_filter. apply filter_filter.
  - rewrite run_filter. apply Lines_filter, Lines_run.
Qed.

Lemma filter_idempotent_witness :
  let filterCallback :=
    fun line => of_option
      (FilterLineByInputString.matchLine
         (FilterLineByInputString.mk Example.stored (Some "a") true) line) in
  FilterStream.run filterCallback ["x" +:+ JS.NL +:+ "y"] =
  FilterStream.run filterCallback
    ["apple" +:+ JS.NL +:+ "x"; JS.NL +:+ "grape" +:+ JS.NL +:+ "y"].
Proof.
  intros filterCallback.
  apply (filter_idempotent filterCallback
           ["apple" +:+ JS.NL +:+ "x"; JS.NL +:+ "grape" +:+ JS.NL +:+ "y"]
           ["x" +:+ JS.NL +:+ "y"]).
  reflexivity.
Defined.

(** ** The substring filter *)

Section InputString.

Import FilterLineByInputString.

Lemma matchLine_contain (hist : History) (pat line : string) :
  matchLine (mk hist (Some pat) false) line =
  if bool_decide (JS.indexOf line pat = -1) then None else Some line.
Proof.
  unfold matchLine. cbn [_inputstring notcontain].
  case_bool_decide as Hi.
  - by rewrite Hi.
  - by apply Z.eqb_neq in Hi as ->.
Qed.

Lemma matchLine_notcontain (hist : History) (pat line : string) :
  matchLine (mk hist (Some pat) true) line =
  if bool_decide (JS.indexOf line pat = -1) then Some line else None.
Proof.
  unfold matchLine. cbn [_inputstring notcontain].
  case_bool_decide as Hi.
  - by rewrite Hi.
  - by apply Z.eqb_neq in Hi as ->.
Qed.

Lemma indexOf_from_found (i : Z) (s pat : string) :
  JS.indexOf_from i pat s <> -1 -> contains s pat.
Proof.
  revert i. induction s as [|c s IH]; intros i; cbn [JS.indexOf_from].
  - destruct (String.prefix pat "") eqn:Hp; [|done].
    intros _. apply prefix_iff in Hp as [post Hp]. by exists "", post.
  - destruct (String.prefix pat (String c s)) eqn:Hp.
    + intros _. apply contains_String. by left.
    + intros Hi. apply contains_String. right. by apply (IH (i + 1)).
Qed.

Lemma indexOf_found (s pat : string) :
  JS.indexOf s pat <> -1 -> contains s pat.
Proof. apply indexOf_from_found. Qed.

End InputString.

(** C3.  With the pattern [an], the lines [apple], [banana], [grape] filter
    to [banana] when lines holding the pattern are kept, and to [apple],
    [grape] when they are dropped, through the filter stream and by
    [matchLine] on each line alike; and [matchLine] answers with the line
    when the line holds the pattern (does not hold it, for [notcontain]),
    and with [undefined] otherwise. *)
Theorem substring_filter (hist : History) :
  FilterStream.run
    (fun line => of_option
       (FilterLineByInputString.matchLine
          (FilterLineByInputString.mk hist (Some "an") false) line))
    [Example.line "apple"; Example.line "banana"; Example.line "grape"] =
  [Example.line "banana"] /\
  FilterStream.run
    (fun line => of_option
       (FilterLineByInputString.matchLine
          (FilterLineByInputString.mk hist (Some "an") true) line))
    [Example.line "apple"; Example.line "banana"; Example.line "grape"] =
  [Example.line "apple"; Example.line "grape"] /\
  omap (FilterLineByInputString.matchLine
          (FilterLineByInputString.mk hist (Some "an") false))
       [Example.line "apple"; Example.line "banana"; Example.line "grape"] =
  [Example.line "banana"] /\
  omap (FilterLineByInputString.matchLine
          (FilterLineByInputString.mk hist (Some "an") true))
       [Example.line "apple"; Example.line "banana"; Example.line "grape"] =
  [Example.line "apple"; Example.line "grape"] /\
  (forall pat line : string,
     (contains line pat <->
      FilterLineByInputString.matchLine
        (FilterLineByInputString.mk hist (Some pat) false) line = Some line) /\
     (~ contains line pat <->
      FilterLineByInputString.matchLine
        (FilterLineByInputString.mk hist (Some pat) false) line = None) /\
     (~ contains line pat <->
      FilterLineByInputString.matchLine
        (FilterLineByInputString.mk hist (Some pat) true) line = Some line) /\
     (contains line pat <->
      FilterLineByInputString.matchLine
        (FilterLineByInputString.mk hist (Some pat) true) line = None)).
Proof.
  do 4 (split; [reflexivity|]).
  intros pat line.
  rewrite matchLine_contain, matchLine_notcontain.
  case_bool_decide as Hi.
  - apply indexOf_minus_one in Hi. naive_solver.
  - apply indexOf_found in Hi. naive_solver.
Qed.

(** ** Placing the result ([filter_]) *)

Ltac host_cases :=
  repeat (cbn; match goal with
               | |- context [bool_decide ?P] => destruct (bool_decide P)
               | |- context [List.find ?f ?l] => destruct (List.find f l)
               | |- context [isDirty ?d] => destruct (isDirty d)
               | |- context [openWrite ?h ?p] => destruct (openWrite h p) as [[]| |]
               | |- context [read ?h ?i] => destruct (read h i)
               end).

Ltac unfold_process :=
  unfold Filter.process, Filter.pipeline, Filter.createInputStream,
    Filter.findOpenedDoc, Filter.open, M.bind, M.ask, M.call,
    M.await, M.emit, M.ret, M.throw.

Section Process2.

Context {S : Type}.
Variables (fromUri : Uri.t) (filterCallback : string -> CallbackResult).
Variables (h : Host) (s : S).

Lemma process_state :
  M.state (Filter.process fromUri filterCallback h s) = s.
Proof. unfold_process. host_cases; reflexivity. Qed.

(** [process] opens and writes streams and logs; it does nothing else. *)
Lemma process_trace :
  Forall (fun e => editor_event e = false /\ removal_event e = false /\
                   warning_event e = false)
         (M.trace (Filter.process fromUri filterCallback h s)).
Proof. unfold_process. host_cases; repeat constructor. Qed.

(** The file [process] answers with is the one it wrote. *)
Lemma process_returned (tmpPath : Uri.t) :
  M.outcome (Filter.process fromUri filterCallback h s) = Returned tmpPath ->
  tmpPath = Uri_parse h ("file:" +:+ Filter.outPath fromUri h).
Proof.
  unfold_process. host_cases; cbn; intros Heq; by inversion Heq.
Qed.

End Process2.

Section Placement.

Import FilterLineBase.

Context {Self : Type} `{Overrides Self}.

(** What [filter_] does once the output is too large for an editor, up to
    the point where the retained file is opened. *)
Lemma filter__large (h : Host) (self : Self) (uri tmpPath : Uri.t)
    (evs : list Event) (size : Z) :
  saveAfterFiltering h = false ->
  Filter.process uri (fun line => of_option (matchLine self line)) h self =
    (Returned tmpPath, self, evs) ->
  stat h (Uri.fsPath tmpPath) = Returned size ->
  LARGE_MODE_THR < size ->
  filter_ uri h self =
  match openTextDocument h (Uri.fsPath tmpPath),
        showTextDocument h (Uri.fsPath tmpPath) with
  | Returned _, Returned _ =>
      (Returned tt, self,
       evs ++ [StatAsync (Uri.fsPath tmpPath);
               AppendLine LARGE_WARNING; ShowWarningMessage LARGE_WARNING;
               OpenTextDocument (Uri.fsPath tmpPath);
               ShowTextDocument (Uri.fsPath tmpPath);
               AppendLine COMPLETED; ShowInformationMessage COMPLETED])
  | Returned _, Thrown e =>
      (Thrown e, self,
       evs ++ [StatAsync (Uri.fsPath tmpPath);
               AppendLine LARGE_WARNING; ShowWarningMessage LARGE_WARNING;
               OpenTextDocument (Uri.fsPath tmpPath);
               ShowTextDocument (Uri.fsPath tmpPath)])
  | Returned _, Pending =>
      (Pending, self,
       evs ++ [StatAsync (Uri.fsPath tmpPath);
               AppendLine LARGE_WARNING; ShowWarningMessage LARGE_WARNING;
               OpenTextDocument (Uri.fsPath tmpPath);
               ShowTextDocument (Uri.fsPath tmpPath)])
  | Thrown e, _ =>
      (Thrown e, self,
       evs ++ [StatAsync (Uri.fsPath tmpPath);
               AppendLine LARGE_WARNING; ShowWarningMessage LARGE_WARNING;
               OpenTextDocument (Uri.fsPath tmpPath)])
  | Pending, _ =>
      (Pending, self,
       evs ++ [StatAsync (Uri.fsPath tmpPath);
               AppendLine LARGE_WARNING; ShowWarningMessage LARGE_WARNING;
               OpenTextDocument (Uri.fsPath tmpPath)])
  end.
Proof.
  intros Hsave Hproc Hstat Hsize.
  unfold filter_. unfold M.bind at 1. unfold M.get at 1.
  unfold M.bind at 1. rewrite Hproc.
  unfold M.bind at 1. unfold M.call at 1. rewrite Hstat.
  unfold getSaveAfterFilteringFlag, showWarning, showInfo, appendLine,
    M.bind, M.ask, M.call, M.emit, M.ret. rewrite Hsave.
  apply Z.ltb_lt in Hsize. rewrite Hsize. cbn.
  destruct (openTextDocument h (Uri.fsPath tmpPath)) as [[]| |]; cbn; [|done..].
  destruct (showTextDocument h (Uri.fsPath tmpPath)) as [[]| |]; cbn; done.
Qed.

Lemma filter__move_failed (h : Host) (self : Self) (uri tmpPath : Uri.t)
    (evs : list Event) (size : Z) (error : Error) :
  saveAfterFiltering h = true ->
  Uri.scheme uri = "file" ->
  Filter.process uri (fun line => of_option (matchLine self line)) h self =
    (Returned tmpPath, self, evs) ->
  stat h (Uri.fsPath tmpPath) = Returned size ->
  move h (Uri.fsPath tmpPath) (Uri.fsPath (adjacent h uri tmpPath)) =
    Thrown error ->
  filter_ uri h self =
  let moved :=
    [StatAsync (Uri.fsPath tmpPath);
     MoveAsync (Uri.fsPath tmpPath) (Uri.fsPath (adjacent h uri tmpPath));
     AppendLine MOVE_ERROR; ShowErrorMessage MOVE_ERROR;
     OpenTextDocument (Uri.fsPath tmpPath)] in
  match openTextDocument h (Uri.fsPath tmpPath),
        showTextDocument h (Uri.fsPath tmpPath) with
  | Returned _, Returned _ =>
      (Returned tt, self,
       evs ++ moved ++ [ShowTextDocument (Uri.fsPath tmpPath);
                        AppendLine COMPLETED; ShowInformationMessage COMPLETED])
  | Returned _, Thrown e =>
      (Thrown e, self, evs ++ moved ++ [ShowTextDocument (Uri.fsPath tmpPath)])
  | Returned _, Pending =>
      (Pending, self, evs ++ moved ++ [ShowTextDocument (Uri.fsPath tmpPath)])
  | Thrown e, _ => (Thrown e, self, evs ++ moved)
  | Pending, _ => (Pending, self, evs ++ moved)
  end.
Proof.
  intros Hsave Hscheme Hproc Hstat Hmove.
  unfold filter_. unfold M.bind at 1. unfold M.get at 1.
  unfold M.bind at 1. rewrite Hproc.
  unfold M.bind at 1. unfold M.call at 1. rewrite Hstat.
  unfold getSaveAfterFilteringFlag, showError, showInfo, appendLine,
    M.try_catch, M.bind, M.ask, M.call, M.emit, M.ret. rewrite Hsave.
  rewrite (bool_decide_eq_true_2 _ Hscheme). cbn [negb].
  unfold adjacent in Hmove. rewrite Hmove. cbn.
  destruct (openTextDocument h (Uri.fsPath tmpPath)) as [[]| |]; cbn;
    [|reflexivity..].
  destruct (showTextDocument h (Uri.fsPath tmpPath)) as [[]| |]; reflexivity.
Qed.

End Placement.

(** C4.  With [saveAfterFiltering] off and an output of more than 30 MiB,
    [filter_] warns and opens the temporary file it has kept: nothing is
    read back into an editor buffer and the file is neither moved nor
    deleted. *)
Theorem large_output_stays_in_temp {Self : Type} `{FilterLineBase.Overrides Self}
    (h : Host) (self : Self) (uri tmpPath : Uri.t) (evs : list Event)
    (size : Z) :
  saveAfterFiltering h = false ->
  Filter.process uri
    (fun line => of_option (FilterLineBase.matchLine self line)) h self =
    (Returned tmpPath, self, evs) ->
  stat h (Uri.fsPath tmpPath) = Returned size ->
  30 * 1024 * 1024 < size ->
  let r := FilterLineBase.filter_ uri h self in
  (exists rest,
     M.trace r =
     evs ++ [StatAsync (Uri.fsPath tmpPath);
             AppendLine LARGE_WARNING; ShowWarningMessage LARGE_WARNING;
             OpenTextDocument (Uri.fsPath tmpPath)] ++ rest) /\
  Forall (fun e => editor_event e = false /\ removal_event e = false)
         (M.trace r) /\
  (openTextDocument h (Uri.fsPath tmpPath) = Returned tt ->
   showTextDocument h (Uri.fsPath tmpPath) = Returned tt ->
   r = (Returned tt, self,
        evs ++ [StatAsync (Uri.fsPath tmpPath);
                AppendLine LARGE_WARNING; ShowWarningMessage LARGE_WARNING;
                OpenTextDocument (Uri.fsPath tmpPath);
                ShowTextDocument (Uri.fsPath tmpPath);
                AppendLine COMPLETED; ShowInformationMessage COMPLETED])).
Proof.
  intros Hsave Hproc Hstat Hsize r.
  assert (Forall (fun e => editor_event e = false /\ removal_event e = false) evs)
    as Hevs.
  { pose proof (process_trace uri
      (fun line => of_option (FilterLineBase.matchLine self line)) h self) as Ht.
    rewrite Hproc in Ht. cbn in Ht.
    eapply Forall_impl; [exact Ht|]. by intros e (? & ? & ?). }
  subst r. rewrite (filter__large h self uri tmpPath evs size) by done.
  destruct (openTextDocument h (Uri.fsPath tmpPath)) as [[]| |];
    [destruct (showTextDocument h (Uri.fsPath tmpPath)) as [[]| |]|..]; cbn.
  all: split; [eexists; reflexivity|].
  all: split; [apply Forall_app; split; [done|repeat constructor]|].
  all: by intros.
Qed.

Lemma large_output_stays_in_temp_witness :
  let h := Example.host false 31457281 (Returned "an") (Returned tt) []
             Example.fruit in
  let self := FilterLineByInputString.mk Example.stored (Some "an") false in
  let uri := Example.file "/var/log/sys.log" in
  let tmp := "/tmp/sys.filterline-1700000000000.log" in
  let evs := [CreateReadStream (ReadStream "/var/log/sys.log");
              CreateWriteStream tmp;
              WriteStreamEnd tmp [Example.line "banana"]] in
  let r := FilterLineBase.filter_ uri h self in
  (exists rest,
     M.trace r =
     evs ++ [StatAsync tmp;
             AppendLine LARGE_WARNING; ShowWarningMessage LARGE_WARNING;
             OpenTextDocument tmp] ++ rest) /\
  Forall (fun e => editor_event e = false /\ removal_event e = false)
         (M.trace r) /\
  (openTextDocument h tmp = Returned tt ->
   showTextDocument h tmp = Returned tt ->
   r = (Returned tt, self,
        evs ++ [StatAsync tmp;
                AppendLine LARGE_WARNING; ShowWarningMessage LARGE_WARNING;
                OpenTextDocument tmp; ShowTextDocument tmp;
                AppendLine COMPLETED; ShowInformationMessage COMPLETED])).
Proof.
  intros h self uri tmp evs.
  apply (large_output_stays_in_temp h self uri
           (Example.posix_parse ("file:" +:+ tmp))
           evs 31457281).
  - reflexivity.
  - reflexivity.
  - reflexivity.
  - lia.
Defined.

(** C7, as the code has it.  With [saveAfterFiltering] on, a source on disk
    and a move that fails, [filter_] shows an error message (not a warning),
    keeps the temporary file and opens it; once it is open the run reports
    that filtering completed. *)
Theorem move_failure_keeps_temp {Self : Type} `{FilterLineBase.Overrides Self}
    (h : Host) (self : Self) (uri tmpPath : Uri.t) (evs : list Event)
    (size : Z) (error : Error) :
  saveAfterFiltering h = true ->
  Uri.scheme uri = "file" ->
  Filter.process uri
    (fun line => of_option (FilterLineBase.matchLine self line)) h self =
    (Returned tmpPath, self, evs) ->
  stat h (Uri.fsPath tmpPath) = Returned size ->
  move h (Uri.fsPath tmpPath) (Uri.fsPath (adjacent h uri tmpPath)) =
    Thrown error ->
  let r := FilterLineBase.filter_ uri h self in
  (exists rest,
     M.trace r =
     evs ++ [StatAsync (Uri.fsPath tmpPath);
             MoveAsync (Uri.fsPath tmpPath) (Uri.fsPath (adjacent h uri tmpPath));
             AppendLine MOVE_ERROR; ShowErrorMessage MOVE_ERROR;
             OpenTextDocument (Uri.fsPath tmpPath)] ++ rest) /\
  Forall (fun e => warning_event e = false /\ editor_event e = false /\
                   forall path, e <> UnlinkAsync path)
         (M.trace r) /\
  (openTextDocument h (Uri.fsPath tmpPath) = Returned tt ->
   showTextDocument h (Uri.fsPath tmpPath) = Returned tt ->
   r = (Returned tt, self,
        evs ++ [StatAsync (Uri.fsPath tmpPath);
                MoveAsync (Uri.fsPath tmpPath)
                          (Uri.fsPath (adjacent h uri tmpPath));
                AppendLine MOVE_ERROR; ShowErrorMessage MOVE_ERROR;
                OpenTextDocument (Uri.fsPath tmpPath);
                ShowTextDocument (Uri.fsPath tmpPath);
                AppendLine COMPLETED; ShowInformationMessage COMPLETED])).
Proof.
  intros Hsave Hscheme Hproc Hstat Hmove r.
  assert (Forall (fun e => warning_event e = false /\ editor_event e = false /\
                           forall path, e <> UnlinkAsync path) evs) as Hevs.
  { pose proof (process_trace uri
      (fun line => of_option (FilterLineBase.matchLine self line)) h self) as Ht.
    rewrite Hproc in Ht. cbn in Ht.
    eapply Forall_impl; [exact Ht|].
    intros e (He & Hr & Hw). repeat split; [done..|].
    intros path ->. discriminate. }
  subst r.
  rewrite (filter__move_failed h self uri tmpPath evs size error) by done.
  destruct (openTextDocument h (Uri.fsPath tmpPath)) as [[]| |];
    [destruct (showTextDocument h (Uri.fsPath tmpPath)) as [[]| |]|..]; cbn.
  all: split; [eexists; reflexivity|].
  all: split; [apply Forall_app; split; [done|repeat constructor; done]|].
  all: by intros.
Qed.

Lemma move_failure_keeps_temp_witness :
  let h := Example.host true 5 (Returned "an") (Thrown Example.EACCES) []
             Example.fruit in
  let self := FilterLineByInputString.mk Example.stored (Some "an") false in
  let uri := Example.file "/var/log/sys.log" in
  let tmp := "/tmp/sys.filterline-1700000000000.log" in
  let dst := "/var/log/sys.filterline-1700000000000.log" in
  let evs := [CreateReadStream (ReadStream "/var/log/sys.log");
              CreateWriteStream tmp;
              WriteStreamEnd tmp [Example.line "banana"]] in
  let r := FilterLineBase.filter_ uri h self in
  (exists rest,
     M.trace r =
     evs ++ [StatAsync tmp; MoveAsync tmp dst;
             AppendLine MOVE_ERROR; ShowErrorMessage MOVE_ERROR;
             OpenTextDocument tmp] ++ rest) /\
  Forall (fun e => warning_event e = false /\ editor_event e = false /\
                   forall path, e <> UnlinkAsync path)
         (M.trace r) /\
  (openTextDocument h tmp = Returned tt ->
   showTextDocument h tmp = Returned tt ->
   r = (Returned tt, self,
        evs ++ [StatAsync tmp; MoveAsync tmp dst;
                AppendLine MOVE_ERROR; ShowErrorMessage MOVE_ERROR;
                OpenTextDocument tmp; ShowTextDocument tmp;
                AppendLine COMPLETED; ShowInformationMessage COMPLETED])).
Proof.
  intros h self uri tmp dst evs.
  apply (move_failure_keeps_temp h self uri
           (Example.posix_parse ("file:" +:+ tmp))
           evs 5 Example.EACCES).
  - reflexivity.
  - reflexivity.
  - reflexivity.
  - reflexivity.
  - reflexivity.
Defined.

(** C7, as it is stated, fails in two ways.  On the first run the move fails
    and everything else goes well: the error message is shown, and no
    warning.  On the second run the move fails and the retained file cannot
    be opened: [filter_] ends with that exception and completion is not
    reported. *)
Lemma move_failure_no_warning_nor_completion :
  let h := Example.host true 5 (Returned "an") (Thrown Example.EACCES) []
             Example.fruit in
  let h' := Tweak.unopenable h Tweak.CANCELED in
  let self := FilterLineByInputString.mk Example.stored (Some "an") false in
  let uri := Example.file "/var/log/sys.log" in
  let tmp := Example.file "/tmp/sys.filterline-1700000000000.log" in
  let callback :=
    fun line => of_option (FilterLineBase.matchLine self line) in
  (saveAfterFiltering h = true /\
   Uri.scheme uri = "file" /\
   M.outcome (Filter.process uri callback h self) = Returned tmp /\
   move h (Uri.fsPath tmp) (Uri.fsPath (adjacent h uri tmp)) =
     Thrown Example.EACCES /\
   ShowErrorMessage MOVE_ERROR ∈ M.trace (FilterLineBase.filter_ uri h self) /\
   ~ (exists text,
        ShowWarningMessage text ∈ M.trace (FilterLineBase.filter_ uri h self))) /\
  (saveAfterFiltering h' = true /\
   Uri.scheme uri = "file" /\
   M.outcome (Filter.process uri callback h' self) = Returned tmp /\
   move h' (Uri.fsPath tmp) (Uri.fsPath (adjacent h' uri tmp)) =
     Thrown Example.EACCES /\
   M.outcome (FilterLineBase.filter_ uri h' self) = Thrown Tweak.CANCELED /\
   OpenTextDocument (Uri.fsPath tmp)
     ∈ M.trace (FilterLineBase.filter_ uri h' self) /\
   ~ ShowInformationMessage COMPLETED
       ∈ M.trace (FilterLineBase.filter_ uri h' self)).
Proof.
  intros h h' self uri tmp callback. split.
  - repeat split.
    + vm_compute. do 6 apply list_elem_of_further. apply list_elem_of_here.
    + intros [text Hin]. vm_compute in Hin.
      repeat (apply elem_of_cons in Hin as [Hin|Hin]; [discriminate|]).
      by apply elem_of_nil in Hin.
  - repeat split.
    + vm_compute. do 7 apply list_elem_of_further. apply list_elem_of_here.
    + intros Hin. vm_compute in Hin.
      repeat (apply elem_of_cons in Hin as [Hin|Hin]; [discriminate|]).
      by apply elem_of_nil in Hin.
Qed.

(** ** Choosing the source ([createInputStream]) *)

Section Source.

Variables (fromUri : Uri.t) (h : Host).

Lemma openedDoc_Some (doc : TextDocument) :
  openedDoc h fromUri = Some doc ->
  doc ∈ textDocuments h /\ Uri.path (uri doc) = Uri.path fromUri.
Proof.
  intros [Hin Hp]%List.find_some. split.
  - by apply list_elem_of_In.
  - by apply bool_decide_eq_true in Hp.
Qed.

Lemma openedDoc_None :
  openedDoc h fromUri = None <->
  forall doc, doc ∈ textDocuments h -> Uri.path (uri doc) <> Uri.path fromUri.
Proof.
  split.
  - intros Hnone doc Hin%list_elem_of_In.
    pose proof (List.find_none _ _ Hnone doc Hin) as Hp.
    by apply bool_decide_eq_false in Hp.
  - intros Hall. destruct (openedDoc h fromUri) as [doc|] eqn:Hf; [|done].
    apply openedDoc_Some in Hf as [Hin Hp]. by destruct (Hall doc Hin).
Qed.

(** Where no two open documents share a path, the document found is the
    open document of that path. *)
Lemma openedDoc_unique (doc : TextDocument) :
  (forall d1 d2, d1 ∈ textDocuments h -> d2 ∈ textDocuments h ->
     Uri.path (uri d1) = Uri.path (uri d2) -> d1 = d2) ->
  doc ∈ textDocuments h ->
  Uri.path (uri doc) = Uri.path fromUri ->
  openedDoc h fromUri = Some doc.
Proof.
  intros Huniq Hin Hpath.
  destruct (openedDoc h fromUri) as [d|] eqn:Hf.
  - apply openedDoc_Some in Hf as [Hd Hp]. f_equal.
    apply Huniq; [done..|]. by rewrite Hp.
  - destruct (proj1 openedDoc_None Hf doc Hin Hpath).
Qed.

End Source.

(** What [createInputStream] reads, by the document [findOpenedDoc] answers
    with, which is the first of [workspace.textDocuments] that has the path
    of the source, whatever its scheme: for a [file] source that document
    when it is dirty, and the disk otherwise; for any other source that
    document, and when there is none [TextDocument not found] is thrown and
    the run ends there, with nothing opened or written.  Where no two open
    documents share a path, the document found is the only one of that
    path. *)
Lemma input_stream_selection {Self : Type} `{FilterLineBase.Overrides Self}
    (h : Host) (self : Self) (fromUri : Uri.t) :
  let disk := ReadStream (Uri.fsPath fromUri) in
  let missing := AppendLine "Unable to find open document for provided URI" in
  Filter.findOpenedDoc fromUri h self = (Returned (openedDoc h fromUri), self, []) /\
  (forall doc, openedDoc h fromUri = Some doc ->
     doc ∈ textDocuments h /\ Uri.path (uri doc) = Uri.path fromUri) /\
  (openedDoc h fromUri = None <->
   forall doc, doc ∈ textDocuments h -> Uri.path (uri doc) <> Uri.path fromUri) /\
  ((forall d1 d2, d1 ∈ textDocuments h -> d2 ∈ textDocuments h ->
      Uri.path (uri d1) = Uri.path (uri d2) -> d1 = d2) ->
   forall doc, doc ∈ textDocuments h ->
     Uri.path (uri doc) = Uri.path fromUri ->
     openedDoc h fromUri = Some doc) /\
  (Uri.scheme fromUri = "file" ->
   Filter.createInputStream fromUri h self =
   match openedDoc h fromUri with
   | Some doc =>
       if isDirty doc
       then (Returned (TextDocumentReadStream doc), self,
             [CreateReadStream (TextDocumentReadStream doc)])
       else (Returned disk, self, [CreateReadStream disk])
   | None => (Returned disk, self, [CreateReadStream disk])
   end) /\
  (Uri.scheme fromUri <> "file" ->
   match openedDoc h fromUri with
   | Some doc =>
       Filter.createInputStream fromUri h self =
       (Returned (TextDocumentReadStream doc), self,
        [CreateReadStream (TextDocumentReadStream doc)])
   | None =>
       Filter.createInputStream fromUri h self =
       (Thrown (Error_ "TextDocument not found"), self, [missing]) /\
       FilterLineBase.filter_ fromUri h self =
       (Thrown (Error_ "TextDocument not found"), self, [missing])
   end).
Proof.
  intros disk missing.
  split; [reflexivity|]. split; [apply openedDoc_Some|].
  split; [apply openedDoc_None|].
  split; [intros Huniq doc; by apply openedDoc_unique|].
  split; intros Hscheme.
  - unfold Filter.createInputStream, M.bind.
    rewrite bool_decide_eq_true_2, findOpenedDoc_run by done.
    fold (openedDoc h fromUri).
    destruct (openedDoc h fromUri) as [doc|]; [|reflexivity].
    by destruct (isDirty doc).
  - assert (Filter.createInputStream fromUri h self =
            match openedDoc h fromUri with
            | Some doc =>
                (Returned (TextDocumentReadStream doc), self,
                 [CreateReadStream (TextDocumentReadStream doc)])
            | None => (Thrown (Error_ "TextDocument not found"), self, [missing])
            end) as Hstream.
    { unfold Filter.createInputStream, M.bind.
      rewrite bool_decide_eq_false_2, findOpenedDoc_run by done.
      fold (openedDoc h fromUri).
      by destruct (openedDoc h fromUri). }
    destruct (openedDoc h fromUri) as [doc|]; [done|]. split; [done|].
    unfold FilterLineBase.filter_, Filter.process.
    unfold M.bind, M.get, M.ask. by rewrite Hstream.
Qed.

(** A clean document that has the path of a [file] source and stands first
    among the open documents decides alone: the disk is read, whatever
    documents follow. *)
Lemma createInputStream_first_clean {S : Type} (h : Host) (s : S)
    (fromUri : Uri.t) (first : TextDocument) (docs : list TextDocument) :
  Uri.scheme fromUri = "file" ->
  textDocuments h = first :: docs ->
  Uri.path (uri first) = Uri.path fromUri ->
  isDirty first = false ->
  Filter.createInputStream fromUri h s =
  (Returned (ReadStream (Uri.fsPath fromUri)), s,
   [CreateReadStream (ReadStream (Uri.fsPath fromUri))]).
Proof.
  intros Hscheme Hdocs Hpath Hclean.
  unfold Filter.createInputStream, M.bind.
  rewrite bool_decide_eq_true_2, findOpenedDoc_run by done.
  rewrite Hdocs. cbn [List.find].
  rewrite bool_decide_eq_true_2 by done. by rewrite Hclean.
Qed.

(** C5, at open documents where it fails.  The file [/var/log/sys.log] is
    shown in a diff editor and has been edited there: the committed side, a
    clean document of scheme [git] and of the same path, was opened first.
    A dirty document of the source is open, yet [findOpenedDoc], which
    compares paths alone, answers with the clean one, and
    [createInputStream] reads the disk: the changes that are not saved are
    not filtered. *)
Theorem dirty_document_not_read :
  let p := "/var/log/sys.log" in
  let fromUri := Example.file p in
  let dirty := {| uri := fromUri; isDirty := true |} in
  let h := Example.host false 5 (Returned "an") (Returned tt) (Tweak.diffed p)
             Example.fruit in
  Uri.scheme fromUri = "file" /\
  dirty ∈ textDocuments h /\
  Filter.findOpenedDoc fromUri h tt =
    (Returned (Some {| uri := Tweak.git p; isDirty := false |}), tt, []) /\
  Filter.createInputStream fromUri h tt =
    (Returned (ReadStream p), tt, [CreateReadStream (ReadStream p)]) /\
  M.outcome (Filter.createInputStream fromUri h tt) <>
    Returned (TextDocumentReadStream dirty).
Proof.
  intros p fromUri dirty h.
  split; [reflexivity|]. split.
  { apply list_elem_of_further, list_elem_of_here. }
  split; [reflexivity|].
  assert (Filter.createInputStream fromUri h tt =
          (Returned (ReadStream p), tt, [CreateReadStream (ReadStream p)]))
    as Hdisk.
  { by apply (createInputStream_first_clean h tt fromUri
                {| uri := Tweak.git p; isDirty := false |} [dirty]). }
  split; [exact Hdisk|]. rewrite Hdisk. discriminate.
Qed.

(** ** Asking for the pattern ([prepare]) and [filter] *)

Section Prepare.

Import FilterLineBase.

Context {Self : Type} `{Fields Self}.

(** When there is a source to filter, finding it leaves no trace. *)
Lemma getSourceUri_Some (h : Host) (self : Self) (filePath : option Uri.t)
    (srcUri : Uri.t) :
  M.outcome (getSourceUri filePath h self) = Returned (Some srcUri) ->
  getSourceUri filePath h self = (Returned (Some srcUri), self, []).
Proof.
  unfold getSourceUri, M.outcome.
  destruct filePath as [fileUri|]; cbn; [by intros [= ->]|].
  unfold M.bind, M.ask. destruct (activeTextEditor h); cbn; [|done].
  by intros [= <-].
Qed.

End Prepare.

(** C6.  A pattern [new RegExp] rejects ends the run inside [prepare]: the
    error is shown, the callback is told [false], and [filter] returns with
    the object as it was, no stream opened and no file written. *)
Theorem invalid_regex_aborts (E : RegExpEngine) (h : Host)
    (self : FilterLineByInputRegex.t E) (filePath : option Uri.t)
    (srcUri : Uri.t) (pattern : string) (entries : list string) :
  M.outcome (FilterLineBase.getSourceUri filePath h self) =
    Returned (Some srcUri) ->
  FilterLineByInputRegex.history_ self !! "inputRegex" = Some entries ->
  quickPick h = Returned pattern ->
  pattern <> "" ->
  compile E pattern = None ->
  let incorrect := syntaxError E pattern in
  let shown :=
    [ShowQuickPick ("" :: entries);
     AppendLine ("Regex is incorrect: " +:+ incorrect);
     AppendLine ("Regex incorrect :" +:+ incorrect);
     ShowErrorMessage ("Regex incorrect :" +:+ incorrect)] in
  (forall callback : bool -> M (FilterLineByInputRegex.t E) unit,
     FilterLineByInputRegex.prepare callback h self =
     (M.emit (ShowQuickPick ("" :: entries));;
      M.emit (AppendLine ("Regex is incorrect: " +:+ incorrect));;
      M.emit (AppendLine ("Regex incorrect :" +:+ incorrect));;
      M.emit (ShowErrorMessage ("Regex incorrect :" +:+ incorrect));;
      callback false) h self) /\
  FilterLineBase.filter filePath h self =
  (Returned tt, self,
   AppendLine ("will filter file: " +:+ Uri.path srcUri) :: shown ++
   [AppendLine "Succeed false"]) /\
  Forall (fun e => pipeline_event e = false)
         (M.trace (FilterLineBase.filter filePath h self)).
Proof.
  intros Hsrc Hhist Hpick Hne Hcompile incorrect shown.
  assert (forall callback : bool -> M (FilterLineByInputRegex.t E) unit,
     FilterLineByInputRegex.prepare callback h self =
     (M.emit (ShowQuickPick ("" :: entries));;
      M.emit (AppendLine ("Regex is incorrect: " +:+ incorrect));;
      M.emit (AppendLine ("Regex incorrect :" +:+ incorrect));;
      M.emit (ShowErrorMessage ("Regex incorrect :" +:+ incorrect));;
      callback false) h self) as Hprepare.
  { intros callback.
    unfold FilterLineByInputRegex.prepare, FilterLineBase.showHistoryPick,
      FilterLineBase.showError, FilterLineBase.appendLine.
    unfold M.bind, M.get, M.call, M.emit, FilterLineByInputRegex.HIST_KEY.
    cbn [FilterLineBase.history FilterLineByInputRegex.fields].
    rewrite Hhist, Hpick.
    rewrite bool_decide_eq_false_2, Hcompile by done. cbn.
    by destruct (callback false h self) as [[o s] t]. }
  assert (FilterLineBase.filter filePath h self =
          (Returned tt, self,
           AppendLine ("will filter file: " +:+ Uri.path srcUri) :: shown ++
           [AppendLine "Succeed false"])) as Hfilter.
  { unfold FilterLineBase.filter. unfold M.bind at 1.
    rewrite (getSourceUri_Some _ _ _ _ Hsrc).
    unfold M.bind at 1. unfold FilterLineBase.appendLine at 1.
    unfold M.emit at 1.
    cbn [FilterLineBase.prepare FilterLineByInputRegex.overrides].
    rewrite Hprepare. reflexivity. }
  split; [done|]. split; [done|].
  rewrite Hfilter. repeat constructor.
Qed.

Lemma invalid_regex_aborts_witness :
  let h := Example.host false 5 (Returned "(") (Returned tt) []
             Example.fruit in
  let self := Example.byRegex false in
  let srcUri := Example.file "/var/log/sys.log" in
  let incorrect := "SyntaxError: Invalid regular expression: /(/" in
  let shown :=
    [ShowQuickPick [""];
     AppendLine ("Regex is incorrect: " +:+ incorrect);
     AppendLine ("Regex incorrect :" +:+ incorrect);
     ShowErrorMessage ("Regex incorrect :" +:+ incorrect)] in
  (forall callback : bool -> M (FilterLineByInputRegex.t Example.engine) unit,
     FilterLineByInputRegex.prepare callback h self =
     (M.emit (ShowQuickPick [""]);;
      M.emit (AppendLine ("Regex is incorrect: " +:+ incorrect));;
      M.emit (AppendLine ("Regex incorrect :" +:+ incorrect));;
      M.emit (ShowErrorMessage ("Regex incorrect :" +:+ incorrect));;
      callback false) h self) /\
  FilterLineBase.filter (Some srcUri) h self =
  (Returned tt, self,
   AppendLine "will filter file: /var/log/sys.log" :: shown ++
   [AppendLine "Succeed false"]) /\
  Forall (fun e => pipeline_event e = false)
         (M.trace (FilterLineBase.filter (Some srcUri) h self)).
Proof.
  intros h self srcUri incorrect shown.
  apply (invalid_regex_aborts Example.engine h self (Some srcUri) srcUri "(" []).
  - reflexivity.
  - reflexivity.
  - reflexivity.
  - discriminate.
  - reflexivity.
Defined.

(** C10.  When the quick pick is accepted on its empty entry, [prepare]
    tells the callback [false], for the substring filter and for the regex
    filter alike, and [filter] returns with the object, its history
    included, as it was: nothing is stored, no stream is opened and no file
    is written. *)
Theorem empty_pattern_aborts (E : RegExpEngine) (h : Host)
    (byString : FilterLineByInputString.t)
    (byRegex : FilterLineByInputRegex.t E)
    (filePath : option Uri.t) (srcUri : Uri.t)
    (strings regexes : list string) :
  M.outcome (FilterLineBase.getSourceUri filePath h byString) =
    Returned (Some srcUri) ->
  FilterLineByInputString.history_ byString !! "inputStr" = Some strings ->
  FilterLineByInputRegex.history_ byRegex !! "inputRegex" = Some regexes ->
  quickPick h = Returned "" ->
  let started := AppendLine ("will filter file: " +:+ Uri.path srcUri) in
  let empty := AppendLine "User input is an empty" in
  ((forall callback : bool -> M FilterLineByInputString.t unit,
      FilterLineByInputString.prepare callback h byString =
      (M.emit (ShowQuickPick ("" :: strings));; M.emit empty;;
       callback false) h byString) /\
   FilterLineBase.filter filePath h byString =
   (Returned tt, byString,
    [started; ShowQuickPick ("" :: strings); empty;
     AppendLine "Succeed false"])) /\
  ((forall callback : bool -> M (FilterLineByInputRegex.t E) unit,
      FilterLineByInputRegex.prepare callback h byRegex =
      (M.emit (ShowQuickPick ("" :: regexes));; M.emit empty;;
       callback false) h byRegex) /\
   FilterLineBase.filter filePath h byRegex =
   (Returned tt, byRegex,
    [started; ShowQuickPick ("" :: regexes); empty;
     AppendLine "Succeed false"])).
Proof.
  intros Hsrc Hstrings Hregexes Hpick started empty.
  assert (forall callback : bool -> M FilterLineByInputString.t unit,
      FilterLineByInputString.prepare callback h byString =
      (M.emit (ShowQuickPick ("" :: strings));; M.emit empty;;
       callback false) h byString) as HprepareS.
  { intros callback.
    unfold FilterLineByInputString.prepare, FilterLineBase.showHistoryPick,
      FilterLineBase.appendLine.
    unfold M.bind, M.get, M.call, M.emit, FilterLineByInputString.HIST_KEY.
    cbn [FilterLineBase.history FilterLineByInputString.fields].
    rewrite Hstrings, Hpick, bool_decide_eq_true_2 by done. cbn.
    by destruct (callback false h byString) as [[o s] t]. }
  assert (forall callback : bool -> M (FilterLineByInputRegex.t E) unit,
      FilterLineByInputRegex.prepare callback h byRegex =
      (M.emit (ShowQuickPick ("" :: regexes));; M.emit empty;;
       callback false) h byRegex) as HprepareR.
  { intros callback.
    unfold FilterLineByInputRegex.prepare, FilterLineBase.showHistoryPick,
      FilterLineBase.appendLine.
    unfold M.bind, M.get, M.call, M.emit, FilterLineByInputRegex.HIST_KEY.
    cbn [FilterLineBase.history FilterLineByInputRegex.fields].
    rewrite Hregexes, Hpick, bool_decide_eq_true_2 by done. cbn.
    by destruct (callback false h byRegex) as [[o s] t]. }
  assert (M.outcome (FilterLineBase.getSourceUri filePath h byRegex) =
          Returned (Some srcUri)) as HsrcR.
  { revert Hsrc. unfold FilterLineBase.getSourceUri, M.outcome.
    destruct filePath; [done|]. unfold M.bind, M.ask.
    by destruct (activeTextEditor h). }
  split; (split; [done|]).
  - unfold FilterLineBase.filter. unfold M.bind at 1.
    rewrite (getSourceUri_Some _ _ _ _ Hsrc).
    unfold M.bind at 1. unfold FilterLineBase.appendLine at 1.
    unfold M.emit at 1.
    cbn [FilterLineBase.prepare FilterLineByInputString.overrides].
    rewrite HprepareS. reflexivity.
  - unfold FilterLineBase.filter. unfold M.bind at 1.
    rewrite (getSourceUri_Some _ _ _ _ HsrcR).
    unfold M.bind at 1. unfold FilterLineBase.appendLine at 1.
    unfold M.emit at 1.
    cbn [FilterLineBase.prepare FilterLineByInputRegex.overrides].
    rewrite HprepareR. reflexivity.
Qed.

Lemma empty_pattern_aborts_witness :
  let h := Example.host false 5 (Returned "") (Returned tt) []
             Example.fruit in
  let byString := Example.byString false in
  let byRegex := Example.byRegex true in
  let srcUri := Example.file "/var/log/sys.log" in
  let started := AppendLine "will filter file: /var/log/sys.log" in
  let empty := AppendLine "User input is an empty" in
  ((forall callback : bool -> M FilterLineByInputString.t unit,
      FilterLineByInputString.prepare callback h byString =
      (M.emit (ShowQuickPick [""; "an"]);; M.emit empty;;
       callback false) h byString) /\
   FilterLineBase.filter (Some srcUri) h byString =
   (Returned tt, byString,
    [started; ShowQuickPick [""; "an"]; empty; AppendLine "Succeed false"])) /\
  ((forall callback : bool -> M (FilterLineByInputRegex.t Example.engine) unit,
      FilterLineByInputRegex.prepare callback h byRegex =
      (M.emit (ShowQuickPick [""]);; M.emit empty;;
       callback false) h byRegex) /\
   FilterLineBase.filter (Some srcUri) h byRegex =
   (Returned tt, byRegex,
    [started; ShowQuickPick [""]; empty; AppendLine "Succeed false"])).
Proof.
  intros h byString byRegex srcUri started empty.
  apply (empty_pattern_aborts Example.engine h byString byRegex
           (Some srcUri) srcUri ["an"] []).
  - reflexivity.
  - reflexivity.
  - reflexivity.
  - reflexivity.
Defined.

(** ** Naming the output ([Filter.process]) *)

Section Naming.

Variables (h : Host) (fromUri : Uri.t).

Lemma split_lacks (c : ascii) (s : string) :
  lacks c s = true -> JS.split c s = [s].
Proof.
  unfold JS.split. induction s as [|d s IH]; [done|].
  cbn [lacks JS.split_ne]. intros [Hd Hs]%andb_true_iff.
  apply negb_true_iff in Hd. rewrite Hd.
  specialize (IH Hs). destruct (JS.split_ne c s) as [hd tl].
  by injection IH as -> ->.
Qed.

(** The name is the base, the marker, the time and the extension. *)
Lemma outName_other :
  Uri.scheme fromUri <> "file" ->
  Filter.outName fromUri h =
  Uri.path fromUri +:+ "." +:+ "filterline" +:+ "-" +:+
  JS.toString (getTime h) +:+
  (if bool_decide (extname h (Uri.path fromUri) = "") then ".txt"
   else extname h (Uri.path fromUri)).
Proof.
  intros Hscheme. unfold Filter.outName.
  by rewrite bool_decide_eq_false_2.
Qed.

Lemma outName_file :
  Uri.scheme fromUri = "file" ->
  Filter.outName fromUri h =
  JS.join "."
    (JS.slice_init
       (JS.split "." (JS.slice_last (JS.split (sep h) (Uri.fsPath fromUri)))))
  +:+ "." +:+ "filterline" +:+ "-" +:+ JS.toString (getTime h) +:+
  extname h (Uri.path fromUri).
Proof.
  intros Hscheme. unfold Filter.outName.
  by rewrite bool_decide_eq_true_2.
Qed.

(** A file whose name has no dot gives the empty base: its name is lost. *)
Lemma outName_file_no_dot :
  Uri.scheme fromUri = "file" ->
  lacks "." (JS.slice_last (JS.split (sep h) (Uri.fsPath fromUri))) = true ->
  Filter.outName fromUri h =
  "." +:+ "filterline" +:+ "-" +:+ JS.toString (getTime h) +:+
  extname h (Uri.path fromUri).
Proof.
  intros Hscheme Hdot. rewrite outName_file by done.
  by rewrite (split_lacks _ _ Hdot).
Qed.

End Naming.

(** C8, at a source without extension.  For [/var/log/syslog] the base name
    is [syslog] and there is no extension, yet [process] names its output
    [.filterline-1700000000000]: the base is empty. *)
Theorem temp_name_without_extension :
  let h := Example.host false 5 (Returned "an") (Returned tt) []
             Example.fruit in
  let fromUri := Example.file "/var/log/syslog" in
  JS.slice_last (JS.split (sep h) (Uri.fsPath fromUri)) = "syslog" /\
  extname h (Uri.path fromUri) = "" /\
  JS.toString (getTime h) = "1700000000000" /\
  Filter.outName fromUri h = ".filterline-1700000000000" /\
  Filter.outPath fromUri h = "/tmp/.filterline-1700000000000" /\
  Filter.outName fromUri h <> "syslog.filterline-1700000000000".
Proof. repeat split. discriminate. Qed.

(** ** The pattern history ([addToHistory]) *)

Section History.

Import FilterLineBase.

Lemma array_indexOf_None (l : list string) (x : string) :
  JS.array_indexOf l x = None <-> x ∉ l.
Proof.
  induction l as [|y l IH]; cbn [JS.array_indexOf].
  - split; [intros _; apply not_elem_of_nil | done].
  - case_bool_decide as Hy.
    + split; [done|]. intros Hn. destruct Hn. subst. apply list_elem_of_here.
    + rewrite not_elem_of_cons, <- IH.
      destruct (JS.array_indexOf l x); cbn; split; try done.
      by intros [_ ?].
Qed.

Lemma array_indexOf_Some (l : list string) (x : string) (i : nat) :
  JS.array_indexOf l x = Some i ->
  l !! i = Some x /\ x ∉ take i l.
Proof.
  revert i. induction l as [|y l IH]; intros i; cbn [JS.array_indexOf]; [done|].
  case_bool_decide as Hy.
  - intros [= <-]. subst. split; [done|]. apply not_elem_of_nil.
  - destruct (JS.array_indexOf l x) as [j|] eqn:Hj; cbn; [|done].
    intros [= <-]. destruct (IH j eq_refl) as [Hl Ht]. split; [done|].
    cbn. rewrite not_elem_of_cons. split; [congruence | done].
Qed.

Lemma kept_sublist (maxSz : Z) (entries : list string) :
  kept maxSz entries `sublist_of` entries.
Proof.
  unfold kept, JS.splice_from. destruct (maxSz <=? _); [|done].
  apply sublist_take.
Qed.

Lemma kept_length (maxSz : Z) (entries : list string) :
  0 <= maxSz ->
  Z.of_nat (length (kept maxSz entries)) = Z.min maxSz (Z.of_nat (length entries)).
Proof.
  intros Hmax. unfold kept, JS.splice_from.
  destruct (maxSz <=? Z.of_nat (length entries)) eqn:Hle.
  - apply Z.leb_le in Hle.
    assert ((maxSz <? 0) = false) as -> by (apply Z.ltb_ge; lia).
    rewrite length_take. lia.
  - apply Z.leb_gt in Hle. lia.
Qed.

Lemma kept_full (maxSz : Z) (entries : list string) :
  0 <= maxSz ->
  maxSz <= Z.of_nat (length entries) ->
  kept maxSz entries = take (Z.to_nat maxSz) entries.
Proof.
  intros Hmax Hfull. unfold kept, JS.splice_from.
  rewrite (proj2 (Z.leb_le _ _) Hfull).
  assert ((maxSz <? 0) = false) as -> by (apply Z.ltb_ge; lia).
  by rewrite Z.min_l.
Qed.

Context {Self : Type} `{Fields Self}.

(** One run of [addToHistory] on a key the history holds. *)
Lemma addToHistory_run (h : Host) (self : Self) (key newEl : string)
    (entries : list string) :
  history self !! key = Some entries ->
  addToHistory key newEl h self =
  match JS.array_indexOf (kept (historySize h) entries) newEl with
  | None =>
      (Returned tt,
       set_history (<[key := newEl :: kept (historySize h) entries]> (history self))
                   self,
       [GlobalStateUpdate
          (<[key := newEl :: kept (historySize h) entries]> (history self))])
  | Some idx =>
      (Returned tt,
       set_history
         (<[key := newEl :: delete idx (kept (historySize h) entries)]>
            (history self))
         self,
       [])
  end.
Proof.
  intros Hkey. unfold addToHistory, getHistoryMaxSize.
  unfold M.bind, M.get, M.ask, M.ret, M.put, M.emit. rewrite Hkey.
  fold (kept (historySize h) entries).
  by destruct (JS.array_indexOf (kept (historySize h) entries) newEl).
Qed.

End History.

(** X1.  On a key the history does not hold, [addToHistory] only logs: the
    object stays as it is and nothing is stored. *)
Theorem addToHistory_missing_key {Self : Type} `{FilterLineBase.Fields Self}
    (h : Host) (self : Self) (key newEl : string) :
  FilterLineBase.history self !! key = None ->
  FilterLineBase.addToHistory key newEl h self =
  (Returned tt, self,
   [AppendLine ("History doesn't contain '" +:+ key +:+ "' field")]).
Proof.
  intros Hkey. unfold FilterLineBase.addToHistory, FilterLineBase.appendLine.
  unfold M.bind, M.get, M.emit. by rewrite Hkey.
Qed.

Lemma addToHistory_missing_key_witness :
  FilterLineBase.addToHistory "inputRegexp" "an"
    (Example.host false 5 (Returned "an") (Returned tt) [] Example.fruit)
    (Example.byString false) =
  (Returned tt, Example.byString false,
   [AppendLine "History doesn't contain 'inputRegexp' field"]).
Proof.
  apply (addToHistory_missing_key
           (Example.host false 5 (Returned "an") (Returned tt) [] Example.fruit)
           (Example.byString false) "inputRegexp" "an").
  reflexivity.
Defined.

(** X2.  On a key the history holds, [addToHistory] puts the pattern in
    front of the entries of that key and touches no other key.  What follows
    the pattern is taken from the old entries in their order; of the entries
    kept, only the pattern itself is taken out, so that entries without
    duplicates stay without duplicates. *)
Theorem addToHistory_front {Self : Type} `{FilterLineBase.Fields Self}
    (h : Host) (self : Self) (key newEl : string) (entries : list string) :
  FilterLineBase.history self !! key = Some entries ->
  let r := FilterLineBase.addToHistory key newEl h self in
  exists rest : list string,
    M.outcome r = Returned tt /\
    M.state r =
      FilterLineBase.set_history
        (<[key := newEl :: rest]> (FilterLineBase.history self)) self /\
    rest `sublist_of` entries /\
    (forall x, x ∈ kept (historySize h) entries -> x <> newEl -> x ∈ rest) /\
    (NoDup entries -> NoDup (newEl :: rest)).
Proof.
  intros Hkey r. subst r. rewrite (addToHistory_run h self key newEl entries Hkey).
  pose proof (kept_sublist (historySize h) entries) as Hsub.
  destruct (JS.array_indexOf (kept (historySize h) entries) newEl) as [idx|]
    eqn:Hidx.
  - apply array_indexOf_Some in Hidx as [Hlook _].
    pose proof (delete_Permutation _ _ _ Hlook) as Hperm.
    exists (delete idx (kept (historySize h) entries)).
    split; [done|]. split; [done|]. split; [|split].
    + etrans; [apply sublist_delete | done].
    + intros x Hx Hne. rewrite Hperm in Hx.
      apply elem_of_cons in Hx as [Hx|Hx]; [done|done].
    + intros Hnd. rewrite <- Hperm. by eapply sublist_NoDup.
  - apply array_indexOf_None in Hidx.
    exists (kept (historySize h) entries).
    split; [done|]. split; [done|]. split; [done|]. split; [done|].
    intros Hnd. apply NoDup_cons. split; [done|]. by eapply sublist_NoDup.
Qed.

Lemma addToHistory_front_witness :
  let h := Example.host false 5 (Returned "an") (Returned tt) [] Example.fruit in
  let self := FilterLineByInputString.mk
                {[ "inputStr" := ["a"; "b"; "c"] ]} None false in
  let r := FilterLineBase.addToHistory "inputStr" "c" h self in
  exists rest : list string,
    M.outcome r = Returned tt /\
    M.state r =
      FilterLineBase.set_history
        (<["inputStr" := "c" :: rest]> (FilterLineBase.history self)) self /\
    rest `sublist_of` ["a"; "b"; "c"] /\
    (forall x, x ∈ kept (historySize h) ["a"; "b"; "c"] -> x <> "c" -> x ∈ rest) /\
    (NoDup ["a"; "b"; "c"] -> NoDup ("c" :: rest)).
Proof.
  intros h self.
  apply (addToHistory_front h self "inputStr" "c" ["a"; "b"; "c"]).
  reflexivity.
Defined.

(** X3.  With a history size of zero or more, the entries of a key number at
    most one more than the history size after [addToHistory]; they stay
    within the size when there was room before, and they are exactly one
    more than the size when the history was full and the pattern is not
    among the entries kept. *)
Theorem addToHistory_size {Self : Type} `{FilterLineBase.Fields Self}
    (h : Host) (self : Self) (key newEl : string) (entries : list string) :
  FilterLineBase.history self !! key = Some entries ->
  0 <= historySize h ->
  exists after : list string,
    M.state (FilterLineBase.addToHistory key newEl h self) =
      FilterLineBase.set_history
        (<[key := after]> (FilterLineBase.history self)) self /\
    Z.of_nat (length after) <= historySize h + 1 /\
    (Z.of_nat (length entries) < historySize h ->
     Z.of_nat (length after) <= historySize h) /\
    (historySize h <= Z.of_nat (length entries) ->
     newEl ∉ take (Z.to_nat (historySize h)) entries ->
     Z.of_nat (length after) = historySize h + 1).
Proof.
  intros Hkey Hsize. rewrite (addToHistory_run h self key newEl entries Hkey).
  pose proof (kept_length (historySize h) entries Hsize) as Hlen.
  destruct (JS.array_indexOf (kept (historySize h) entries) newEl) as [idx|]
    eqn:Hidx.
  - apply array_indexOf_Some in Hidx as [Hlook _].
    eexists. split; [reflexivity|].
    assert (length (delete idx (kept (historySize h) entries)) =
            (length (kept (historySize h) entries) - 1)%nat) as Hdel.
    { apply length_delete. by eexists. }
    assert (newEl ∈ kept (historySize h) entries) as Hin.
    { apply list_elem_of_lookup. by exists idx. }
    apply lookup_lt_Some in Hlook. cbn [length]. rewrite Hdel.
    split; [lia|]. split; [lia|].
    intros Hfull Hnot. exfalso. apply Hnot. by rewrite <- kept_full.
  - eexists. split; [reflexivity|]. cbn [length]. split; [lia|]. split; [lia|].
    intros Hfull _. lia.
Qed.

Lemma addToHistory_size_witness :
  let h := Example.host false 5 (Returned "an") (Returned tt) [] Example.fruit in
  let entries := ["1"; "2"; "3"; "4"; "5"; "6"; "7"; "8"; "9"; "10"] in
  let self := FilterLineByInputString.mk {[ "inputStr" := entries ]} None false in
  exists after : list string,
    M.state (FilterLineBase.addToHistory "inputStr" "11" h self) =
      FilterLineBase.set_history
        (<["inputStr" := after]> (FilterLineBase.history self)) self /\
    Z.of_nat (length after) <= historySize h + 1 /\
    (Z.of_nat (length entries) < historySize h ->
     Z.of_nat (length after) <= historySize h) /\
    (historySize h <= Z.of_nat (length entries) ->
     "11" ∉ take (Z.to_nat (historySize h)) entries ->
     Z.of_nat (length after) = historySize h + 1).
Proof.
  intros h entries self.
  apply (addToHistory_size h self "inputStr" "11" entries).
  - reflexivity.
  - vm_compute. discriminate.
Defined.

(** X4.  [addToHistory] stores the history in the global state exactly when
    the pattern is new among the entries kept; a pattern the history already
    holds is moved to the front in the object only, and nothing is stored. *)
Theorem addToHistory_stores_new {Self : Type} `{FilterLineBase.Fields Self}
    (h : Host) (self : Self) (key newEl : string) (entries : list string) :
  FilterLineBase.history self !! key = Some entries ->
  let r := FilterLineBase.addToHistory key newEl h self in
  (newEl ∉ kept (historySize h) entries ->
   r = (Returned tt,
        FilterLineBase.set_history
          (<[key := newEl :: kept (historySize h) entries]>
             (FilterLineBase.history self)) self,
        [GlobalStateUpdate
           (<[key := newEl :: kept (historySize h) entries]>
              (FilterLineBase.history self))])) /\
  (newEl ∈ kept (historySize h) entries ->
   M.trace r = [] /\
   exists rest,
     newEl :: rest ≡ₚ kept (historySize h) entries /\
     M.state r =
       FilterLineBase.set_history
         (<[key := newEl :: rest]> (FilterLineBase.history self)) self).
Proof.
  intros Hkey r. subst r. rewrite (addToHistory_run h self key newEl entries Hkey).
  destruct (JS.array_indexOf (kept (historySize h) entries) newEl) as [idx|]
    eqn:Hidx.
  - apply array_indexOf_Some in Hidx as [Hlook _]. split.
    + intros Hnot. destruct Hnot. apply list_elem_of_lookup. by exists idx.
    + intros _. split; [done|].
      exists (delete idx (kept (historySize h) entries)). split; [|done].
      symmetry. by apply delete_Permutation.
  - apply array_indexOf_None in Hidx. split; [done|]. by intros Hin.
Qed.

Lemma addToHistory_stores_new_witness :
  let h := Example.host false 5 (Returned "an") (Returned tt) [] Example.fruit in
  let self := FilterLineByInputString.mk
                {[ "inputStr" := ["a"; "b"; "c"] ]} None false in
  let r := FilterLineBase.addToHistory "inputStr" "b" h self in
  ("b" ∉ kept (historySize h) ["a"; "b"; "c"] ->
   r = (Returned tt,
        FilterLineBase.set_history
          (<["inputStr" := "b" :: kept (historySize h) ["a"; "b"; "c"]]>
             (FilterLineBase.history self)) self,
        [GlobalStateUpdate
           (<["inputStr" := "b" :: kept (historySize h) ["a"; "b"; "c"]]>
              (FilterLineBase.history self))])) /\
  ("b" ∈ kept (historySize h) ["a"; "b"; "c"] ->
   M.trace r = [] /\
   exists rest,
     "b" :: rest ≡ₚ kept (historySize h) ["a"; "b"; "c"] /\
     M.state r =
       FilterLineBase.set_history
         (<["inputStr" := "b" :: rest]> (FilterLineBase.history self)) self).
Proof.
  intros h self.
  apply (addToHistory_stores_new h self "inputStr" "b" ["a"; "b"; "c"]).
  reflexivity.
Defined.

(** ** Construction, and runs that end before the pattern is known *)

(** X5.  A constructed filter holds an entry for its own key, so that its
    quick pick opens: the stored history is taken as it is when it has the
    key, and gets the key with no entries, the history being stored back,
    when it has not.  Other keys are left alone, and no pattern is set: the
    new object keeps no line. *)
Theorem constructor_history (E : RegExpEngine) (h h' : Host) (stored : History) :
  let byString := (FilterLineByInputString.constructor h stored).1 in
  let byRegex := (FilterLineByInputRegex.constructor E h stored).1 in
  let entries key := default [] (stored !! key) in
  (FilterLineByInputString.history_ byString =
     <["inputStr" := entries "inputStr"]> stored /\
   (FilterLineByInputString.constructor h stored).2 =
     AppendLine ("Temp path: " +:+ tmpdir h) ::
     match stored !! "inputStr" with
     | Some _ => []
     | None => [GlobalStateUpdate (<["inputStr" := []]> stored)]
     end /\
   FilterLineBase.showHistoryPick "inputStr" h' byString =
     (quickPick h', byString, [ShowQuickPick ("" :: entries "inputStr")]) /\
   forall line, FilterLineByInputString.matchLine byString line = None) /\
  (FilterLineByInputRegex.history_ byRegex =
     <["inputRegex" := entries "inputRegex"]> stored /\
   (FilterLineByInputRegex.constructor E h stored).2 =
     AppendLine ("Temp path: " +:+ tmpdir h) ::
     match stored !! "inputRegex" with
     | Some _ => []
     | None => [GlobalStateUpdate (<["inputRegex" := []]> stored)]
     end /\
   FilterLineBase.showHistoryPick "inputRegex" h' byRegex =
     (quickPick h', byRegex, [ShowQuickPick ("" :: entries "inputRegex")]) /\
   forall line, FilterLineByInputRegex.matchLine byRegex line = None).
Proof.
  intros byString byRegex entries. subst byString byRegex entries. split.
  - unfold FilterLineByInputString.constructor, FilterLineByInputString.HIST_KEY,
      FilterLineBase.showHistoryPick, M.bind, M.get, M.call.
    destruct (stored !! "inputStr") as [l|] eqn:Hl;
      cbn [fst snd default FilterLineByInputString.history_
           FilterLineBase.history FilterLineByInputString.fields].
    + rewrite insert_id by done. rewrite Hl. by destruct (quickPick h').
    + rewrite lookup_insert_eq. by destruct (quickPick h').
  - unfold FilterLineByInputRegex.constructor, FilterLineByInputRegex.HIST_KEY,
      FilterLineBase.showHistoryPick, M.bind, M.get, M.call.
    destruct (stored !! "inputRegex") as [l|] eqn:Hl;
      cbn [fst snd default FilterLineByInputRegex.history_
           FilterLineBase.history FilterLineByInputRegex.fields].
    + rewrite insert_id by done. rewrite Hl. by destruct (quickPick h').
    + rewrite lookup_insert_eq. by destruct (quickPick h').
Qed.

(** X6.  Started from the command palette with no active editor, [filter]
    shows its error and stops: no pattern is asked for, no stream is opened
    and the object stays as it is. *)
Theorem filter_without_source {Self : Type} `{FilterLineBase.Overrides Self}
    (h : Host) (self : Self) :
  activeTextEditor h = None ->
  let text := "No file selected or file is too large. For large files, use file's context menu. For more information please visit README" in
  FilterLineBase.filter None h self =
  (Returned tt, self, [AppendLine text; ShowErrorMessage text]).
Proof.
  intros Hed text. unfold FilterLineBase.filter, FilterLineBase.getSourceUri,
    FilterLineBase.showError, FilterLineBase.appendLine.
  unfold M.bind, M.ask, M.emit, M.ret. by rewrite Hed.
Qed.

Lemma filter_without_source_witness :
  let h := Example.host false 5 (Returned "an") (Returned tt) [] Example.fruit in
  let text := "No file selected or file is too large. For large files, use file's context menu. For more information please visit README" in
  FilterLineBase.filter None h (Example.byString false) =
  (Returned tt, Example.byString false,
   [AppendLine text; ShowErrorMessage text]).
Proof.
  intros h.
  apply (filter_without_source h (Example.byString false)).
  reflexivity.
Defined.

(** X7.  When the quick pick is dismissed, its promise is never settled:
    [filter] stays pending after the quick pick was shown, with the object
    as it was, nothing stored, no stream opened and no message shown.  This
    holds for the substring filter and the regex filter alike. *)
Theorem filter_dismissed (E : RegExpEngine) (h : Host)
    (byString : FilterLineByInputString.t)
    (byRegex : FilterLineByInputRegex.t E)
    (filePath : option Uri.t) (srcUri : Uri.t)
    (strings regexes : list string) :
  M.outcome (FilterLineBase.getSourceUri filePath h byString) =
    Returned (Some srcUri) ->
  FilterLineByInputString.history_ byString !! "inputStr" = Some strings ->
  FilterLineByInputRegex.history_ byRegex !! "inputRegex" = Some regexes ->
  quickPick h = Pending ->
  let started := AppendLine ("will filter file: " +:+ Uri.path srcUri) in
  FilterLineBase.filter filePath h byString =
    (Pending, byString, [started; ShowQuickPick ("" :: strings)]) /\
  FilterLineBase.filter filePath h byRegex =
    (Pending, byRegex, [started; ShowQuickPick ("" :: regexes)]).
Proof.
  intros Hsrc Hstrings Hregexes Hpick started.
  assert (M.outcome (FilterLineBase.getSourceUri filePath h byRegex) =
          Returned (Some srcUri)) as HsrcR.
  { revert Hsrc. unfold FilterLineBase.getSourceUri, M.outcome.
    destruct filePath; [done|]. unfold M.bind, M.ask.
    by destruct (activeTextEditor h). }
  split.
  - unfold FilterLineBase.filter. unfold M.bind at 1.
    rewrite (getSourceUri_Some _ _ _ _ Hsrc).
    unfold M.bind at 1. unfold FilterLineBase.appendLine at 1.
    unfold M.emit at 1.
    cbn [FilterLineBase.prepare FilterLineByInputString.overrides].
    unfold FilterLineByInputString.prepare, FilterLineBase.showHistoryPick.
    unfold M.bind, M.get, M.call, FilterLineByInputString.HIST_KEY.
    cbn [FilterLineBase.history FilterLineByInputString.fields].
    by rewrite Hstrings, Hpick.
  - unfold FilterLineBase.filter. unfold M.bind at 1.
    rewrite (getSourceUri_Some _ _ _ _ HsrcR).
    unfold M.bind at 1. unfold FilterLineBase.appendLine at 1.
    unfold M.emit at 1.
    cbn [FilterLineBase.prepare FilterLineByInputRegex.overrides].
    unfold FilterLineByInputRegex.prepare, FilterLineBase.showHistoryPick.
    unfold M.bind, M.get, M.call, FilterLineByInputRegex.HIST_KEY.
    cbn [FilterLineBase.history FilterLineByInputRegex.fields].
    by rewrite Hregexes, Hpick.
Qed.

Lemma filter_dismissed_witness :
  let h := Example.host false 5 Pending (Returned tt) [] Example.fruit in
  let srcUri := Example.file "/var/log/sys.log" in
  let started := AppendLine "will filter file: /var/log/sys.log" in
  FilterLineBase.filter (Some srcUri) h (Example.byString false) =
    (Pending, Example.byString false, [started; ShowQuickPick [""; "an"]]) /\
  FilterLineBase.filter (Some srcUri) h (Example.byRegex false) =
    (Pending, Example.byRegex false, [started; ShowQuickPick [""]]).
Proof.
  intros h srcUri started.
  apply (filter_dismissed Example.engine h (Example.byString false)
           (Example.byRegex false) (Some srcUri) srcUri ["an"] []).
  - reflexivity.
  - reflexivity.
  - reflexivity.
  - reflexivity.
Defined.

(** ** The items of the quick pick *)

Section Items.

Variable entries : list string.

Lemma onDidChangeValue_shape (items : list string) (value : string) :
  (exists x, items = x :: entries) ->
  (exists x, QuickPick.onDidChangeValue entries items value = x :: entries) /\
  value ∈ QuickPick.onDidChangeValue entries items value.
Proof.
  intros [x ->]. unfold QuickPick.onDidChangeValue.
  destruct (JS.array_indexOf entries value) as [i|] eqn:Hi.
  - split; [by exists x|].
    apply array_indexOf_Some in Hi as [Hi _].
    apply elem_of_cons. right. apply list_elem_of_lookup. by exists i.
  - split; [by exists value|]. apply list_elem_of_here.
Qed.

Lemma typed_snoc (values : list string) (value : string) :
  QuickPick.typed entries (values ++ [value]) =
  QuickPick.onDidChangeValue entries (QuickPick.typed entries values) value.
Proof. unfold QuickPick.typed. by rewrite foldl_app. Qed.

Lemma typed_shape (values : list string) :
  exists x, QuickPick.typed entries values = x :: entries.
Proof.
  induction values as [|value values IH] using rev_ind.
  - by exists "".
  - rewrite typed_snoc. by apply onDidChangeValue_shape.
Qed.

End Items.

(** X8.  Whatever the user types into the quick pick, the items it is given
    are one entry in front of the whole history, in the order of the
    history, and the value typed last is among them; a value the history
    does not hold is the entry in front. *)
Theorem quick_pick_items (entries values : list string) (value : string) :
  (exists x, QuickPick.typed entries (values ++ [value]) = x :: entries) /\
  value ∈ QuickPick.typed entries (values ++ [value]) /\
  (value ∉ entries ->
   QuickPick.typed entries (values ++ [value]) = value :: entries).
Proof.
  split; [apply typed_shape|]. rewrite typed_snoc. split.
  - apply onDidChangeValue_shape, typed_shape.
  - intros Hnew. unfold QuickPick.onDidChangeValue.
    by rewrite (proj2 (array_indexOf_None entries value) Hnew).
Qed.

(** ** A pattern is picked: [prepare], then [filter_] *)

Section Picked.

Import FilterLineBase.

Lemma includes_contains (line pat : string) :
  includes line pat = true <-> contains line pat.
Proof.
  unfold includes. rewrite negb_true_iff, Z.eqb_neq. split.
  - apply indexOf_found.
  - intros Hc Hi. by apply indexOf_minus_one in Hi.
Qed.

(** The stream [createInputStream] answers with does not depend on the
    object. *)
Lemma createInputStream_outcome {S S' : Type} (fromUri : Uri.t) (h : Host)
    (s : S) (s' : S') :
  M.outcome (Filter.createInputStream fromUri h s) =
  M.outcome (Filter.createInputStream fromUri h s').
Proof.
  unfold Filter.createInputStream, Filter.findOpenedDoc, Filter.open,
    M.outcome, M.bind, M.ask, M.emit, M.ret, M.throw.
  host_cases; reflexivity.
Qed.

Lemma process_run {S : Type} (fromUri : Uri.t)
    (filterCallback : string -> CallbackResult) (h : Host) (s : S)
    (input : Readable) (chunks : list string) :
  M.outcome (Filter.createInputStream fromUri h s) = Returned input ->
  openWrite h (Filter.outPath fromUri h) = Returned tt ->
  read h input = Returned chunks ->
  Filter.process fromUri filterCallback h s =
  (Returned (Uri_parse h ("file:" +:+ Filter.outPath fromUri h)), s,
   [CreateReadStream input;
    CreateWriteStream (Filter.outPath fromUri h);
    WriteStreamEnd (Filter.outPath fromUri h)
      (FilterStream.run filterCallback chunks)]).
Proof.
  intros Hin Hopen Hread.
  unfold Filter.process, Filter.pipeline, M.bind, M.ask, M.call, M.await,
    M.emit, M.ret.
  by rewrite (createInputStream_returned _ _ _ _ Hin), Hopen, Hread.
Qed.

Lemma bind_trace_returned {S A B : Type} (m : M S A) (k : A -> M S B)
    (h : Host) (s s1 : S) (a : A) (t1 : list Event) :
  m h s = (Returned a, s1, t1) ->
  M.trace (M.bind m k h s) = t1 ++ M.trace (k a h s1).
Proof.
  intros Hm. unfold M.bind, M.trace. rewrite Hm.
  by destruct (k a h s1) as [[o s2] t2].
Qed.

Context {Self : Type} `{Overrides Self}.

(** Whatever [filter_] does next, it has first written the filtered lines. *)
Lemma filter__writes (h : Host) (self : Self) (uri : Uri.t)
    (input : Readable) (chunks : list string) :
  M.outcome (Filter.createInputStream uri h self) = Returned input ->
  openWrite h (Filter.outPath uri h) = Returned tt ->
  read h input = Returned chunks ->
  exists post,
    M.trace (filter_ uri h self) =
    [CreateReadStream input;
     CreateWriteStream (Filter.outPath uri h);
     WriteStreamEnd (Filter.outPath uri h)
       (FilterStream.run (fun line => of_option (matchLine self line)) chunks)]
    ++ post.
Proof.
  intros Hin Hopen Hread. unfold filter_. eexists.
  erewrite bind_trace_returned by reflexivity.
  erewrite bind_trace_returned
    by exact (process_run uri _ h self input chunks Hin Hopen Hread).
  reflexivity.
Qed.

End Picked.

Section PickedPattern.

Import FilterLineBase.

Lemma showHistoryPick_run {Self : Type} `{Fields Self} (h : Host) (self : Self)
    (key : string) (entries : list string) :
  history self !! key = Some entries ->
  showHistoryPick key h self =
  (quickPick h, self, [ShowQuickPick ("" :: entries)]).
Proof.
  intros Hkey. unfold showHistoryPick, M.bind, M.get, M.call. rewrite Hkey.
  by destruct (quickPick h).
Qed.

(** [addToHistory] returns, with the pattern in front of entries taken from
    the old ones, having stored the history or not. *)
Lemma addToHistory_returns {Self : Type} `{Fields Self} (h : Host)
    (self : Self) (key newEl : string) (entries : list string) :
  history self !! key = Some entries ->
  exists rest stored,
    rest `sublist_of` entries /\
    (stored = [] \/
     stored = [GlobalStateUpdate (<[key := newEl :: rest]> (history self))]) /\
    addToHistory key newEl h self =
    (Returned tt, set_history (<[key := newEl :: rest]> (history self)) self,
     stored).
Proof.
  intros Hkey. rewrite (addToHistory_run h self key newEl entries Hkey).
  pose proof (kept_sublist (historySize h) entries) as Hsub.
  destruct (JS.array_indexOf (kept (historySize h) entries) newEl) as [idx|].
  - exists (delete idx (kept (historySize h) entries)), [].
    split; [|by split; [left|]]. etrans; [apply sublist_delete | done].
  - exists (kept (historySize h) entries), [GlobalStateUpdate
      (<[key := newEl :: kept (historySize h) entries]> (history self))].
    split; [done|]. by split; [right|].
Qed.

Lemma array_indexOf_first (l : list string) (x : string) (i : nat) :
  l !! i = Some x -> x ∉ take i l -> JS.array_indexOf l x = Some i.
Proof.
  revert i. induction l as [|y l IH]; intros [|i]; cbn [JS.array_indexOf];
    try done.
  - intros [= ->] _. by rewrite bool_decide_eq_true_2.
  - cbn [take]. intros Hl [Hne Hn]%not_elem_of_cons.
    rewrite bool_decide_eq_false_2 by congruence.
    cbn in Hl. by rewrite (IH i Hl Hn).
Qed.

(** A pattern among the entries has a first place there. *)
Lemma first_place (l : list string) (x : string) :
  x ∈ l -> exists i, l !! i = Some x /\ x ∉ take i l.
Proof.
  intros Hin. destruct (JS.array_indexOf l x) as [i|] eqn:Hi.
  - exists i. by apply array_indexOf_Some.
  - by apply array_indexOf_None in Hi.
Qed.

(** [addToHistory] with a pattern the entries kept do not hold. *)
Lemma addToHistory_new {Self : Type} `{Fields Self} (h : Host) (self : Self)
    (key newEl : string) (entries : list string) :
  history self !! key = Some entries ->
  newEl ∉ kept (historySize h) entries ->
  addToHistory key newEl h self =
  (Returned tt,
   set_history (<[key := newEl :: kept (historySize h) entries]> (history self))
               self,
   [GlobalStateUpdate
      (<[key := newEl :: kept (historySize h) entries]> (history self))]).
Proof.
  intros Hkey Hnew. rewrite (addToHistory_run h self key newEl entries Hkey).
  apply array_indexOf_None in Hnew. by rewrite Hnew.
Qed.

(** [addToHistory] with a pattern the entries kept hold, first at [idx]. *)
Lemma addToHistory_known {Self : Type} `{Fields Self} (h : Host) (self : Self)
    (key newEl : string) (entries : list string) (idx : nat) :
  history self !! key = Some entries ->
  kept (historySize h) entries !! idx = Some newEl ->
  newEl ∉ take idx (kept (historySize h) entries) ->
  addToHistory key newEl h self =
  (Returned tt,
   set_history
     (<[key := newEl :: delete idx (kept (historySize h) entries)]>
        (history self))
     self,
   []).
Proof.
  intros Hkey Hidx Hfirst.
  rewrite (addToHistory_run h self key newEl entries Hkey).
  by rewrite (array_indexOf_first _ _ _ Hidx Hfirst).
Qed.

End PickedPattern.

(** X9.  When a pattern that is not empty is picked, the substring filter's
    [prepare] logs it, adds it to the history as [addToHistory] does, sets
    it as the pattern to look for, leaves the polarity alone and tells the
    callback [true].  With [older] the entries [addToHistory] keeps: a
    pattern that is not among them goes in front of them all and the
    history is stored; a pattern that is among them is taken from its first
    place there and put in front, and nothing is stored. *)
Theorem prepare_sets_inputstring (h : Host) (self : FilterLineByInputString.t)
    (pattern : string) (entries : list string) :
  FilterLineByInputString.history_ self !! "inputStr" = Some entries ->
  quickPick h = Returned pattern ->
  pattern <> "" ->
  let older := kept (historySize h) entries in
  let hist (rest : list string) :=
    <["inputStr" := pattern :: rest]> (FilterLineByInputString.history_ self) in
  let after (rest : list string) :=
    FilterLineByInputString.mk (hist rest) (Some pattern)
      (FilterLineByInputString.notcontain self) in
  let asked :=
    [ShowQuickPick ("" :: entries); AppendLine ("User input: " +:+ pattern)] in
  (pattern ∉ older ->
   forall callback : bool -> M FilterLineByInputString.t unit,
     FilterLineByInputString.prepare callback h self =
     let '(o, s, t) := callback true h (after older) in
     (o, s, asked ++ GlobalStateUpdate (hist older) :: t)) /\
  (forall idx : nat,
     older !! idx = Some pattern ->
     pattern ∉ take idx older ->
     forall callback : bool -> M FilterLineByInputString.t unit,
       FilterLineByInputString.prepare callback h self =
       let '(o, s, t) := callback true h (after (delete idx older)) in
       (o, s, asked ++ t)) /\
  (pattern ∈ older ->
   exists idx : nat, older !! idx = Some pattern /\ pattern ∉ take idx older).
Proof.
  intros Hkey Hpick Hne older hist after asked.
  pose proof (Hkey : FilterLineBase.history self !! "inputStr" = Some entries)
    as Hkey'.
  assert (forall (callback : bool -> M FilterLineByInputString.t unit)
            (rest : list string) (stored : list Event),
            FilterLineBase.addToHistory "inputStr" pattern h self =
            (Returned tt, FilterLineBase.set_history (hist rest) self, stored) ->
            FilterLineByInputString.prepare callback h self =
            let '(o, s, t) := callback true h (after rest) in
            (o, s, asked ++ stored ++ t)) as Hprepare.
  { intros callback rest stored Hadd.
    unfold FilterLineByInputString.prepare, FilterLineByInputString.HIST_KEY.
    unfold M.bind at 1.
    rewrite (showHistoryPick_run h self "inputStr" entries Hkey'), Hpick.
    rewrite bool_decide_eq_false_2 by done.
    unfold FilterLineBase.appendLine, M.bind, M.emit, M.get, M.put.
    rewrite Hadd. cbn.
    by destruct (callback true h _) as [[o s] t]. }
  split; [|split].
  - intros Hnew callback.
    apply (Hprepare callback older [GlobalStateUpdate (hist older)]).
    exact (addToHistory_new h self "inputStr" pattern entries Hkey' Hnew).
  - intros idx Hidx Hfirst callback.
    rewrite (Hprepare callback (delete idx older) []); [done|].
    exact (addToHistory_known h self "inputStr" pattern entries idx Hkey'
             Hidx Hfirst).
  - apply first_place.
Qed.

Lemma prepare_sets_inputstring_witness :
  let h := Example.host false 5 (Returned "gr") (Returned tt) [] Example.fruit in
  let self := Example.byString true in
  let hist : History := <["inputStr" := ["gr"; "an"]]> Example.stored in
  ("gr" ∉ kept (historySize h) ["an"]) /\
  forall callback : bool -> M FilterLineByInputString.t unit,
    FilterLineByInputString.prepare callback h self =
    let '(o, s, t) :=
      callback true h (FilterLineByInputString.mk hist (Some "gr") true) in
    (o, s,
     [ShowQuickPick [""; "an"]; AppendLine "User input: gr";
      GlobalStateUpdate hist] ++ t).
Proof.
  intros h self hist.
  assert ("gr" ∉ kept (historySize h) ["an"]) as Hnew.
  { vm_compute. intros Hin.
    repeat (apply elem_of_cons in Hin as [Hin|Hin]; [discriminate|]).
    by apply elem_of_nil in Hin. }
  split; [exact Hnew|].
  exact (proj1 (prepare_sets_inputstring h self "gr" ["an"]
                  eq_refl eq_refl ltac:(discriminate)) Hnew).
Defined.



(** ** From the pick to the output file *)

Section EndToEnd.

Import FilterLineBase.

Lemma accepted_inputstring (hist : History) (pat : string) (nc : bool)
    (line : string) :
  PredicateFilterTransform.accepted
    (of_option (FilterLineByInputString.matchLine
                  (FilterLineByInputString.mk hist (Some pat) nc) line)) =
  xorb nc (includes line pat).
Proof.
  unfold includes. destruct nc.
  - rewrite matchLine_notcontain. case_bool_decide as Hi.
    + by rewrite Hi.
    + by apply Z.eqb_neq in Hi as ->.
  - rewrite matchLine_contain. case_bool_decide as Hi.
    + by rewrite Hi.
    + by apply Z.eqb_neq in Hi as ->.
Qed.


(** [filter], once a source is there and [prepare] has called back with
    [true] on the object [self']: the filtered lines are written. *)
Lemma filter_trace_writes {Self : Type} `{Overrides Self} (h : Host)
    (self self' : Self) (filePath : option Uri.t) (srcUri : Uri.t)
    (shown : list Event) (input : Readable) (chunks : list string) :
  M.outcome (getSourceUri filePath h self) = Returned (Some srcUri) ->
  (forall callback : bool -> M Self unit,
     prepare callback h self =
     let '(o, s, t) := callback true h self' in (o, s, shown ++ t)) ->
  M.outcome (Filter.createInputStream srcUri h self) = Returned input ->
  openWrite h (Filter.outPath srcUri h) = Returned tt ->
  read h input = Returned chunks ->
  exists pre post,
    M.trace (filter filePath h self) =
    pre ++ WriteStreamEnd (Filter.outPath srcUri h)
             (FilterStream.run (fun line => of_option (matchLine self' line))
                               chunks) :: post.
Proof.
  intros Hsrc Hprepare Hin Hopen Hread.
  rewrite (createInputStream_outcome srcUri h self self') in Hin.
  destruct (filter__writes h self' srcUri input chunks Hin Hopen Hread)
    as [post Hpost].
  unfold filter.
  erewrite bind_trace_returned by exact (getSourceUri_Some _ _ _ _ Hsrc).
  cbv iota beta.
  erewrite bind_trace_returned by reflexivity.
  rewrite Hprepare.
  match goal with
  | |- context [M.bind ?m ?k h self'] =>
      pose proof (bind_trace_returned m k h self' self' tt
                    [AppendLine ("Succeed " +:+ "true")] eq_refl) as Hcb;
      destruct (M.bind m k h self') as [[o s] t]
  end.
  cbv beta iota in Hcb. cbn [negb] in Hcb. cbv iota in Hcb.
  rewrite Hpost in Hcb. unfold M.trace in Hcb |- *. cbn [snd] in Hcb |- *.
  rewrite Hcb.
  eexists (_ :: shown ++ [_; _; _]), post. cbn.
  rewrite <- !app_assoc. reflexivity.
Qed.

End EndToEnd.
(** X11.  The substring filter, from the pick to the file: when a pattern
    that is not empty is picked and the source can be read and the output
    written, what [filter] writes to the output file is the lines of the
    source whose content holds the pattern (does not hold it, for
    [notcontain]): all of them, as often as they occur and in their order,
    and no other line.  A content holds the pattern when [indexOf] does not
    answer [-1], that is, when the pattern is a substring of it. *)
Theorem substring_filter_end_to_end (h : Host)
    (self : FilterLineByInputString.t) (filePath : option Uri.t)
    (srcUri : Uri.t) (pattern : string) (entries : list string)
    (input : Readable) (chunks ls : list string) :
  M.outcome (FilterLineBase.getSourceUri filePath h self) =
    Returned (Some srcUri) ->
  FilterLineByInputString.history_ self !! "inputStr" = Some entries ->
  quickPick h = Returned pattern ->
  pattern <> "" ->
  M.outcome (Filter.createInputStream srcUri h self) = Returned input ->
  openWrite h (Filter.outPath srcUri h) = Returned tt ->
  read h input = Returned chunks ->
  Lines ls ->
  JS.concat chunks = JS.concat ls ->
  let written :=
    List.filter
      (fun line => xorb (FilterLineByInputString.notcontain self)
                        (includes (content line) pattern))
      ls in
  (exists pre post,
     M.trace (FilterLineBase.filter filePath h self) =
     pre ++ WriteStreamEnd (Filter.outPath srcUri h) written :: post) /\
  (forall line,
     includes (content line) pattern = true <->
     contains (content line) pattern).
Proof.
  intros Hsrc Hkey Hpick Hne Hin Hopen Hread Hls Hcat written.
  split; [|intros line; apply includes_contains].
  pose proof (Hkey : FilterLineBase.history self !! "inputStr" = Some entries)
    as Hkey'.
  destruct (addToHistory_returns h self "inputStr" pattern entries Hkey')
    as (rest & stored & _ & _ & Hadd).
  set (self' := FilterLineByInputString.mk
                  (<["inputStr" := pattern :: rest]>
                     (FilterLineByInputString.history_ self))
                  (Some pattern) (FilterLineByInputString.notcontain self)).
  destruct (filter_trace_writes h self self' filePath srcUri
              (ShowQuickPick ("" :: entries)
               :: AppendLine ("User input: " +:+ pattern) :: stored)
              input chunks Hsrc) as (pre & post & Htrace); [|done..|].
  { intros callback.
    unfold FilterLineBase.prepare, FilterLineByInputString.overrides,
      FilterLineByInputString.prepare, FilterLineByInputString.HIST_KEY.
    unfold M.bind at 1.
    rewrite (showHistoryPick_run h self "inputStr" entries Hkey'), Hpick.
    rewrite bool_decide_eq_false_2 by done.
    unfold FilterLineBase.appendLine, M.bind, M.emit, M.get, M.put.
    rewrite Hadd. cbn.
    by destruct (callback true h _) as [[o s] t]. }
  exists pre, post. rewrite Htrace. do 3 f_equal.
  rewrite run_filter, (run_Lines chunks ls) by done.
  apply List.filter_ext. intros line.
  cbn [FilterLineBase.matchLine FilterLineByInputString.overrides].
  unfold self'. apply accepted_inputstring.
Qed.

Lemma substring_filter_end_to_end_witness :
  let h := Example.host false 5 (Returned "an") (Returned tt) []
             ["ban"; "ana" +:+ JS.NL +:+ "apple" +:+ JS.NL +:+ "ba";
              "nana" +:+ JS.NL +:+ "mango"] in
  let self := Example.byString false in
  let srcUri := Example.file "/var/log/sys.log" in
  let ls := [Example.line "banana"; Example.line "apple";
             Example.line "banana"; "mango"] in
  (exists pre post,
     M.trace (FilterLineBase.filter (Some srcUri) h self) =
     pre ++ WriteStreamEnd (Filter.outPath srcUri h)
              [Example.line "banana"; Example.line "banana"; "mango"] :: post) /\
  (forall line,
     includes (content line) "an" = true <-> contains (content line) "an").
Proof.
  intros h self srcUri ls.
  apply (substring_filter_end_to_end h self (Some srcUri) srcUri "an" ["an"]
           (ReadStream "/var/log/sys.log")
           ["ban"; "ana" +:+ JS.NL +:+ "apple" +:+ JS.NL +:+ "ba";
            "nana" +:+ JS.NL +:+ "mango"] ls).
  - reflexivity.
  - reflexivity.
  - reflexivity.
  - discriminate.
  - reflexivity.
  - reflexivity.
  - reflexivity.
  - apply (Lines_cons "banana"); [reflexivity|].
    apply (Lines_cons "apple"); [reflexivity|].
    apply (Lines_cons "banana"); [reflexivity|].
    apply Lines_last; [discriminate | reflexivity].
  - reflexivity.
Defined.



(** X13.  The two polarities of a filter part the lines between them: with a
    pattern set, a line is kept by the substring filter exactly when the
    same filter with [notcontain] flipped drops it, and by the regex filter
    exactly when the same filter with [notmatch] flipped drops it; and a
    line that is kept is answered unchanged. *)
Theorem polarities_part_the_lines (E : RegExpEngine) (hist : History)
    (pat : string) (regex : RegExp E) (polarity : bool) (line : string) :
  (FilterLineByInputString.matchLine
     (FilterLineByInputString.mk hist (Some pat) polarity) line = Some line <->
   FilterLineByInputString.matchLine
     (FilterLineByInputString.mk hist (Some pat) (negb polarity)) line = None) /\
  (FilterLineByInputRegex.matchLine
     (FilterLineByInputRegex.mk hist (Some regex) polarity) line = Some line <->
   FilterLineByInputRegex.matchLine
     (FilterLineByInputRegex.mk hist (Some regex) (negb polarity)) line = None) /\
  (forall kept,
     FilterLineByInputString.matchLine
       (FilterLineByInputString.mk hist (Some pat) polarity) line = Some kept ->
     kept = line) /\
  (forall kept,
     FilterLineByInputRegex.matchLine
       (FilterLineByInputRegex.mk hist (Some regex) polarity) line = Some kept ->
     kept = line).
Proof.
  unfold FilterLineByInputString.matchLine, FilterLineByInputRegex.matchLine.
  cbn [FilterLineByInputString._inputstring FilterLineByInputString.notcontain
       FilterLineByInputRegex._regex FilterLineByInputRegex.notmatch].
  destruct polarity, (JS.indexOf line pat =? -1), (matches E regex line);
    cbn; repeat split; intros; congruence.
Qed.

(** ** Streaming the output into an editor ([filter_]) *)

Ltac trace_eq :=
  repeat (rewrite <- ?app_assoc; rewrite ?app_nil_r; cbn [app]); reflexivity.

Section Streaming.

Import FilterLineBase.

Context {Self : Type} `{Overrides Self}.

Lemma insertChunks_all (h : Host) (s : Self) (chunks : list string) (n : nat) :
  (forall i chunk, chunks !! i = Some chunk ->
     edit h (n + i) chunk = Returned tt) ->
  insertChunks n chunks h s = (Returned tt, s, EditInsert <$> chunks).
Proof.
  revert n. induction chunks as [|chunk chunks IH]; intros n Hedit; [done|].
  cbn [insertChunks]. unfold M.bind, M.call.
  pose proof (Hedit 0%nat chunk eq_refl) as Hfirst.
  rewrite Nat.add_0_r in Hfirst. rewrite Hfirst.
  rewrite (IH (S n)); [done|].
  intros i c Hi. replace (S n + i)%nat with (n + S i)%nat by lia.
  by apply Hedit.
Qed.

Lemma insertChunks_fails (h : Host) (s : Self) (chunks : list string)
    (n k : nat) (chunk : string) (e : Error) :
  chunks !! k = Some chunk ->
  (forall i c, (i < k)%nat -> chunks !! i = Some c ->
     edit h (n + i) c = Returned tt) ->
  edit h (n + k) chunk = Thrown e ->
  insertChunks n chunks h s = (Thrown e, s, EditInsert <$> take (S k) chunks).
Proof.
  revert n k. induction chunks as [|c0 chunks IH]; intros n k Hk Hbefore Hfail;
    [done|].
  cbn [insertChunks]. unfold M.bind, M.call. destruct k as [|k].
  - injection Hk as ->. rewrite Nat.add_0_r in Hfail. by rewrite Hfail.
  - pose proof (Hbefore 0%nat c0 ltac:(lia) eq_refl) as Hfirst.
    rewrite Nat.add_0_r in Hfirst. rewrite Hfirst.
    rewrite (IH (S n) k); [done|done|..].
    + intros i c Hi Hc. replace (S n + i)%nat with (n + S i)%nat by lia.
      apply Hbefore; [lia|done].
    + by replace (S n + k)%nat with (n + S k)%nat by lia.
Qed.

(** [filter_] up to the point where the untitled editor is there: the
    output is small and is not to be saved. *)
Lemma filter__streams (h : Host) (self : Self) (uri tmpPath : Uri.t)
    (evs : list Event) (size : Z) (chunks : list string)
    (ending : Outcome unit) (inserted : Outcome unit) (edits : list Event) :
  saveAfterFiltering h = false ->
  Filter.process uri (fun line => of_option (matchLine self line)) h self =
    (Returned tmpPath, self, evs) ->
  stat h (Uri.fsPath tmpPath) = Returned size ->
  size <= LARGE_MODE_THR ->
  untitledEditor h = true ->
  readTemp h (Uri.fsPath tmpPath) = (chunks, ending) ->
  insertChunks 0 chunks h self = (inserted, self, edits) ->
  filter_ uri h self =
  let tmp := Uri.fsPath tmpPath in
  let started := evs ++ [StatAsync tmp; NewUntitledFile; ReadTemp tmp] ++ edits in
  let completed := [AppendLine COMPLETED; ShowInformationMessage COMPLETED] in
  let fallback (t : list Event) (e : Error) :=
    if bool_decide (name e = Some "DISPOSED")
    then (Returned tt, self, started ++ t ++ completed)
    else
      match openTextDocument h tmp, showTextDocument h tmp with
      | Returned _, Returned _ =>
          (Returned tt, self,
           started ++ t ++ [OpenTextDocument tmp; ShowTextDocument tmp]
           ++ completed)
      | Returned _, Thrown e' =>
          (Thrown e', self,
           started ++ t ++ [OpenTextDocument tmp; ShowTextDocument tmp])
      | Returned _, Pending =>
          (Pending, self,
           started ++ t ++ [OpenTextDocument tmp; ShowTextDocument tmp])
      | Thrown e', _ => (Thrown e', self, started ++ t ++ [OpenTextDocument tmp])
      | Pending, _ => (Pending, self, started ++ t ++ [OpenTextDocument tmp])
      end in
  match inserted with
  | Returned _ =>
      match ending with
      | Returned _ =>
          match unlink h tmp with
          | Returned _ =>
              (Returned tt, self, started ++ [UnlinkAsync tmp] ++ completed)
          | Thrown e => fallback [UnlinkAsync tmp] e
          | Pending => (Pending, self, started ++ [UnlinkAsync tmp])
          end
      | Thrown e => fallback [] e
      | Pending => (Pending, self, started)
      end
  | Thrown e => fallback [] e
  | Pending => (Pending, self, started)
  end.
Proof.
  intros Hsave Hproc Hstat Hsize Heditor Hread Hinsert.
  unfold filter_. unfold M.bind at 1. unfold M.get at 1.
  unfold M.bind at 1. rewrite Hproc.
  unfold M.bind at 1. unfold M.call at 1. rewrite Hstat.
  unfold getSaveAfterFilteringFlag, showInfo, appendLine, streamIntoEditor,
    M.try_catch, M.bind, M.ask, M.call, M.emit, M.ret, M.await, M.throw.
  apply Z.ltb_ge in Hsize. rewrite Hsave, Hsize. cbv beta iota.
  rewrite Heditor. cbn [negb]. cbv beta iota. rewrite Hread, Hinsert.
  destruct inserted as [[]|e|]; cbn.
  - destruct ending as [[]|e|]; cbn.
    + destruct (unlink h (Uri.fsPath tmpPath)) as [[]|e|]; cbn.
      * trace_eq.
      * destruct (bool_decide (name e = Some "DISPOSED")); cbn;
          [trace_eq|].
        destruct (openTextDocument h (Uri.fsPath tmpPath)) as [[]| |]; cbn;
          [|trace_eq..].
        destruct (showTextDocument h (Uri.fsPath tmpPath)) as [[]| |]; cbn;
          trace_eq.
      * trace_eq.
    + destruct (bool_decide (name e = Some "DISPOSED")); cbn;
        [trace_eq|].
      destruct (openTextDocument h (Uri.fsPath tmpPath)) as [[]| |]; cbn;
        [|trace_eq..].
      destruct (showTextDocument h (Uri.fsPath tmpPath)) as [[]| |]; cbn;
        trace_eq.
    + trace_eq.
  - destruct (bool_decide (name e = Some "DISPOSED")); cbn;
      [trace_eq|].
    destruct (openTextDocument h (Uri.fsPath tmpPath)) as [[]| |]; cbn;
      [|trace_eq..].
    destruct (showTextDocument h (Uri.fsPath tmpPath)) as [[]| |]; cbn;
      trace_eq.
  - trace_eq.
Qed.

End Streaming.

(** X14.  With [saveAfterFiltering] off and an output of at most 30 MiB (the
    threshold itself included), when every insertion and the deletion go
    through, [filter_] opens an untitled file, inserts the chunks of the
    temporary file in the order they are read, deletes the temporary file
    and reports completion; the temporary file is not opened as a document. *)
Theorem small_output_streamed {Self : Type} `{FilterLineBase.Overrides Self}
    (h : Host) (self : Self) (uri tmpPath : Uri.t) (evs : list Event)
    (size : Z) (chunks : list string) :
  saveAfterFiltering h = false ->
  Filter.process uri
    (fun line => of_option (FilterLineBase.matchLine self line)) h self =
    (Returned tmpPath, self, evs) ->
  stat h (Uri.fsPath tmpPath) = Returned size ->
  size <= 30 * 1024 * 1024 ->
  untitledEditor h = true ->
  readTemp h (Uri.fsPath tmpPath) = (chunks, Returned tt) ->
  (forall i chunk, chunks !! i = Some chunk -> edit h i chunk = Returned tt) ->
  unlink h (Uri.fsPath tmpPath) = Returned tt ->
  FilterLineBase.filter_ uri h self =
  (Returned tt, self,
   evs ++ [StatAsync (Uri.fsPath tmpPath); NewUntitledFile;
           ReadTemp (Uri.fsPath tmpPath)]
   ++ (EditInsert <$> chunks)
   ++ [UnlinkAsync (Uri.fsPath tmpPath);
       AppendLine COMPLETED; ShowInformationMessage COMPLETED]).
Proof.
  intros Hsave Hproc Hstat Hsize Heditor Hread Hedit Hunlink.
  rewrite (filter__streams h self uri tmpPath evs size chunks (Returned tt)
             (Returned tt) (EditInsert <$> chunks)); try done.
  - cbv beta iota zeta. rewrite Hunlink. trace_eq.
  - by apply insertChunks_all.
Qed.

Lemma small_output_streamed_witness :
  let h := Tweak.host Tweak.plain (fun _ _ => Returned tt) (Returned tt) true
             (Returned 31457280)
             (["ban"; "ana" +:+ JS.NL], Returned tt) in
  let tmp := "/tmp/sys.filterline-1700000000000.log" in
  FilterLineBase.filter_ (Example.file "/var/log/sys.log") h Tweak.banana =
  (Returned tt, Tweak.banana,
   Tweak.written ++ [StatAsync tmp; NewUntitledFile; ReadTemp tmp]
   ++ (EditInsert <$> ["ban"; "ana" +:+ JS.NL])
   ++ [UnlinkAsync tmp; AppendLine COMPLETED; ShowInformationMessage COMPLETED]).
Proof.
  intros h tmp.
  apply (small_output_streamed h Tweak.banana (Example.file "/var/log/sys.log")
           (Example.posix_parse ("file:" +:+ tmp)) Tweak.written 31457280
           ["ban"; "ana" +:+ JS.NL]).
  - reflexivity.
  - reflexivity.
  - reflexivity.
  - lia.
  - reflexivity.
  - reflexivity.
  - intros i chunk _. reflexivity.
  - reflexivity.
Defined.

(** X15.  When the editor is disposed of while the output is streamed into
    it (an insertion throws an error named [DISPOSED]), [filter_] stops
    inserting, neither deletes the temporary file nor opens it, and still
    reports completion. *)
Theorem editor_disposed_midway {Self : Type} `{FilterLineBase.Overrides Self}
    (h : Host) (self : Self) (uri tmpPath : Uri.t) (evs : list Event)
    (size : Z) (chunks : list string) (ending : Outcome unit)
    (k : nat) (chunk : string) (e : Error) :
  saveAfterFiltering h = false ->
  Filter.process uri
    (fun line => of_option (FilterLineBase.matchLine self line)) h self =
    (Returned tmpPath, self, evs) ->
  stat h (Uri.fsPath tmpPath) = Returned size ->
  size <= 30 * 1024 * 1024 ->
  untitledEditor h = true ->
  readTemp h (Uri.fsPath tmpPath) = (chunks, ending) ->
  chunks !! k = Some chunk ->
  (forall i c, (i < k)%nat -> chunks !! i = Some c -> edit h i c = Returned tt) ->
  edit h k chunk = Thrown e ->
  name e = Some "DISPOSED" ->
  FilterLineBase.filter_ uri h self =
  (Returned tt, self,
   evs ++ [StatAsync (Uri.fsPath tmpPath); NewUntitledFile;
           ReadTemp (Uri.fsPath tmpPath)]
   ++ (EditInsert <$> take (S k) chunks)
   ++ [AppendLine COMPLETED; ShowInformationMessage COMPLETED]).
Proof.
  intros Hsave Hproc Hstat Hsize Heditor Hread Hk Hbefore Hfail Hname.
  rewrite (filter__streams h self uri tmpPath evs size chunks ending
             (Thrown e) (EditInsert <$> take (S k) chunks)); try done.
  - cbv beta iota zeta. rewrite bool_decide_eq_true_2 by done. trace_eq.
  - by apply (insertChunks_fails h self chunks 0 k chunk e).
Qed.

Lemma editor_disposed_midway_witness :
  let h := Tweak.host Tweak.plain (Tweak.failing 1 Tweak.DISPOSED) (Returned tt)
             true (Returned 7)
             (["ban"; "ana"; JS.NL], Returned tt) in
  let tmp := "/tmp/sys.filterline-1700000000000.log" in
  FilterLineBase.filter_ (Example.file "/var/log/sys.log") h Tweak.banana =
  (Returned tt, Tweak.banana,
   Tweak.written ++ [StatAsync tmp; NewUntitledFile; ReadTemp tmp]
   ++ (EditInsert <$> take 2 ["ban"; "ana"; JS.NL])
   ++ [AppendLine COMPLETED; ShowInformationMessage COMPLETED]).
Proof.
  intros h tmp.
  apply (editor_disposed_midway h Tweak.banana (Example.file "/var/log/sys.log")
           (Example.posix_parse ("file:" +:+ tmp)) Tweak.written 7
           ["ban"; "ana"; JS.NL] (Returned tt) 1 "ana" Tweak.DISPOSED).
  - reflexivity.
  - reflexivity.
  - reflexivity.
  - lia.
  - reflexivity.
  - reflexivity.
  - reflexivity.
  - intros i c Hi _. by assert (i = 0%nat) as -> by lia.
  - reflexivity.
  - reflexivity.
Defined.





(** ** The other ways out of [filter_] *)

Section Placement2.

Import FilterLineBase.

Context {Self : Type} `{Overrides Self}.

(** [filter_] once the output is written and measured, [saveAfterFiltering]
    being on. *)
Lemma filter__saves (h : Host) (self : Self) (uri tmpPath : Uri.t)
    (evs : list Event) (size : Z) :
  saveAfterFiltering h = true ->
  Filter.process uri (fun line => of_option (matchLine self line)) h self =
    (Returned tmpPath, self, evs) ->
  stat h (Uri.fsPath tmpPath) = Returned size ->
  filter_ uri h self =
  let tmp := Uri.fsPath tmpPath in
  let dst := Uri.fsPath (adjacent h uri tmpPath) in
  let completed := [AppendLine COMPLETED; ShowInformationMessage COMPLETED] in
  let shows (t : list Event) (path : string) :=
    match openTextDocument h path, showTextDocument h path with
    | Returned _, Returned _ =>
        (Returned tt, self,
         evs ++ StatAsync tmp :: t
         ++ [OpenTextDocument path; ShowTextDocument path] ++ completed)
    | Returned _, Thrown e =>
        (Thrown e, self,
         evs ++ StatAsync tmp :: t
         ++ [OpenTextDocument path; ShowTextDocument path])
    | Returned _, Pending =>
        (Pending, self,
         evs ++ StatAsync tmp :: t
         ++ [OpenTextDocument path; ShowTextDocument path])
    | Thrown e, _ =>
        (Thrown e, self, evs ++ StatAsync tmp :: t ++ [OpenTextDocument path])
    | Pending, _ =>
        (Pending, self, evs ++ StatAsync tmp :: t ++ [OpenTextDocument path])
    end in
  if bool_decide (Uri.scheme uri = "file") then
    match move h tmp dst with
    | Returned _ => shows [MoveAsync tmp dst] dst
    | Thrown _ =>
        shows [MoveAsync tmp dst; AppendLine MOVE_ERROR;
               ShowErrorMessage MOVE_ERROR] tmp
    | Pending => (Pending, self, evs ++ [StatAsync tmp; MoveAsync tmp dst])
    end
  else shows [AppendLine NO_FOLDER; ShowWarningMessage NO_FOLDER] tmp.
Proof.
  intros Hsave Hproc Hstat.
  unfold filter_. unfold M.bind at 1. unfold M.get at 1.
  unfold M.bind at 1. rewrite Hproc.
  unfold M.bind at 1. unfold M.call at 1. rewrite Hstat.
  unfold getSaveAfterFilteringFlag, showError, showWarning, showInfo,
    appendLine, M.try_catch, M.bind, M.ask, M.call, M.emit, M.ret.
  rewrite Hsave. cbv beta iota zeta. unfold adjacent.
  destruct (bool_decide (Uri.scheme uri = "file")); cbn [negb].
  - destruct (move h _ _) as [[]|e|]; cbn.
    + match goal with
      | |- context [openTextDocument h ?p] =>
          destruct (openTextDocument h p) as [[]| |]; cbn; [|trace_eq..];
          destruct (showTextDocument h p) as [[]| |]; cbn; trace_eq
      end.
    + destruct (openTextDocument h (Uri.fsPath tmpPath)) as [[]| |]; cbn;
        [|trace_eq..].
      destruct (showTextDocument h (Uri.fsPath tmpPath)) as [[]| |]; cbn;
        trace_eq.
    + trace_eq.
  - destruct (openTextDocument h (Uri.fsPath tmpPath)) as [[]| |]; cbn;
      [|trace_eq..].
    destruct (showTextDocument h (Uri.fsPath tmpPath)) as [[]| |]; cbn;
      trace_eq.
Qed.

End Placement2.





(** X20.  When no editor is active after the untitled file was asked for,
    [filter_] throws [Text Editor does not open]: the temporary file stays,
    unread and unopened, and completion is not reported. *)
Theorem no_editor_for_output {Self : Type} `{FilterLineBase.Overrides Self}
    (h : Host) (self : Self) (uri tmpPath : Uri.t) (evs : list Event)
    (size : Z) :
  saveAfterFiltering h = false ->
  Filter.process uri
    (fun line => of_option (FilterLineBase.matchLine self line)) h self =
    (Returned tmpPath, self, evs) ->
  stat h (Uri.fsPath tmpPath) = Returned size ->
  size <= 30 * 1024 * 1024 ->
  untitledEditor h = false ->
  FilterLineBase.filter_ uri h self =
  (Thrown (Error_ "Text Editor does not open"), self,
   evs ++ [StatAsync (Uri.fsPath tmpPath); NewUntitledFile]).
Proof.
  intros Hsave Hproc Hstat Hsize Heditor.
  unfold FilterLineBase.filter_. unfold M.bind at 1. unfold M.get at 1.
  unfold M.bind at 1. rewrite Hproc.
  unfold M.bind at 1. unfold M.call at 1. rewrite Hstat.
  unfold FilterLineBase.getSaveAfterFilteringFlag, M.try_catch, M.bind, M.ask,
    M.call, M.emit, M.ret, M.throw.
  apply Z.ltb_ge in Hsize.
  change (FilterLineBase.LARGE_MODE_THR <? size) with (30 * 1024 * 1024 <? size).
  rewrite Hsave, Hsize. cbv beta iota. by rewrite Heditor.
Qed.

Lemma no_editor_for_output_witness :
  let h := Tweak.host Tweak.plain (fun _ _ => Returned tt) (Returned tt) false
             (Returned 7) (["banana" +:+ JS.NL], Returned tt) in
  let tmp := "/tmp/sys.filterline-1700000000000.log" in
  FilterLineBase.filter_ (Example.file "/var/log/sys.log") h Tweak.banana =
  (Thrown (Error_ "Text Editor does not open"), Tweak.banana,
   Tweak.written ++ [StatAsync tmp; NewUntitledFile]).
Proof.
  intros h tmp.
  apply (no_editor_for_output h Tweak.banana (Example.file "/var/log/sys.log")
           (Example.posix_parse ("file:" +:+ tmp)) Tweak.written 7).
  - reflexivity.
  - reflexivity.
  - reflexivity.
  - lia.
  - reflexivity.
Defined.

(** X21.  A failure before the output is placed ends [filter_] with that
    exception and without a word to the user: when [process] throws,
    [filter_] throws the same with the same trace, and when the size of the
    output cannot be read, [filter_] throws after [statAsync]; no message is
    shown and completion is not reported. *)
Theorem failure_before_placement {Self : Type} `{FilterLineBase.Overrides Self}
    (h : Host) (self : Self) (uri : Uri.t) :
  (forall e s evs,
     Filter.process uri
       (fun line => of_option (FilterLineBase.matchLine self line)) h self =
       (Thrown e, s, evs) ->
     FilterLineBase.filter_ uri h self = (Thrown e, s, evs)) /\
  (forall tmpPath evs e,
     Filter.process uri
       (fun line => of_option (FilterLineBase.matchLine self line)) h self =
       (Returned tmpPath, self, evs) ->
     stat h (Uri.fsPath tmpPath) = Thrown e ->
     FilterLineBase.filter_ uri h self =
     (Thrown e, self, evs ++ [StatAsync (Uri.fsPath tmpPath)])) /\
  (forall tmpPath e,
     M.outcome (Filter.process uri
       (fun line => of_option (FilterLineBase.matchLine self line)) h self) =
       Thrown e \/
     (M.outcome (Filter.process uri
        (fun line => of_option (FilterLineBase.matchLine self line)) h self) =
        Returned tmpPath /\
      stat h (Uri.fsPath tmpPath) = Thrown e) ->
     M.outcome (FilterLineBase.filter_ uri h self) = Thrown e /\
     Forall (fun ev => forall text,
               ev <> ShowInformationMessage text /\
               ev <> ShowWarningMessage text /\
               ev <> ShowErrorMessage text)
            (M.trace (FilterLineBase.filter_ uri h self))).
Proof.
  assert (forall e s evs,
     Filter.process uri
       (fun line => of_option (FilterLineBase.matchLine self line)) h self =
       (Thrown e, s, evs) ->
     FilterLineBase.filter_ uri h self = (Thrown e, s, evs)) as Hthrown.
  { intros e s evs Hproc. unfold FilterLineBase.filter_.
    unfold M.bind at 1. unfold M.get at 1. unfold M.bind at 1.
    by rewrite Hproc. }
  assert (forall tmpPath evs e,
     Filter.process uri
       (fun line => of_option (FilterLineBase.matchLine self line)) h self =
       (Returned tmpPath, self, evs) ->
     stat h (Uri.fsPath tmpPath) = Thrown e ->
     FilterLineBase.filter_ uri h self =
     (Thrown e, self, evs ++ [StatAsync (Uri.fsPath tmpPath)])) as Hstat.
  { intros tmpPath evs e Hproc Hst. unfold FilterLineBase.filter_.
    unfold M.bind at 1. unfold M.get at 1. unfold M.bind at 1.
    rewrite Hproc. unfold M.bind at 1. unfold M.call at 1.
    by rewrite Hst. }
  split; [done|]. split; [done|].
  intros tmpPath e Hfail.
  pose proof (process_trace uri
    (fun line => of_option (FilterLineBase.matchLine self line)) h self) as Ht.
  pose proof (process_state uri
    (fun line => of_option (FilterLineBase.matchLine self line)) h self) as Hs.
  assert (forall evs,
    Forall (fun e => editor_event e = false /\ removal_event e = false /\
                     warning_event e = false) evs ->
    (forall text, In (ShowErrorMessage text) evs -> False) ->
    (forall text, In (ShowInformationMessage text) evs -> False) ->
    Forall (fun ev => forall text,
               ev <> ShowInformationMessage text /\
               ev <> ShowWarningMessage text /\
               ev <> ShowErrorMessage text) evs) as Hquiet.
  { intros evs Hall Herr Hinfo. apply Forall_forall. intros ev Hin text.
    rewrite Forall_forall in Hall. destruct (Hall ev Hin) as (_ & _ & Hw).
    apply list_elem_of_In in Hin.
    repeat split; intros ->; [by eapply Hinfo | done | by eapply Herr]. }
  destruct (Filter.process uri _ h self) as [[o s] evs] eqn:Hproc.
  cbn in Hs. subst s.
  assert ((forall text, In (ShowErrorMessage text) evs -> False) /\
          (forall text, In (ShowInformationMessage text) evs -> False))
    as [Herr Hinfo].
  { revert Hproc. unfold_process. host_cases; intros [= <- <-];
      split; intros text Hin; cbn in Hin; intuition discriminate. }
  destruct Hfail as [Ho | [Ho Hst]]; cbn in Ho; subst o.
  - rewrite (Hthrown e self evs eq_refl). split; [done|]. by apply Hquiet.
  - rewrite (Hstat tmpPath evs e eq_refl Hst). split; [done|].
    apply Forall_app. split; [by apply Hquiet|].
    repeat constructor; discriminate.
Qed.

(** ** Names: the output file and the saved file *)

Section Names.

Lemma split_ne_app (c : ascii) (a b : string) :
  JS.split_ne c (a +:+ String c b) =
  ((JS.split_ne c a).1, (JS.split_ne c a).2 ++ JS.split c b).
Proof.
  induction a as [|d a IH].
  - rewrite app_empty_l. cbn [JS.split_ne fst snd app]. unfold JS.split.
    rewrite (proj2 (ascii_eqb_true c c) eq_refl).
    by destruct (JS.split_ne c b).
  - rewrite app_String. cbn [JS.split_ne]. rewrite IH.
    destruct (JS.split_ne c a) as [hd tl]. cbn [fst snd].
    by destruct (JS.ascii_eqb d c).
Qed.

Lemma split_app (c : ascii) (a b : string) :
  JS.split c (a +:+ String c b) = JS.split c a ++ JS.split c b.
Proof.
  unfold JS.split at 1 2. rewrite split_ne_app.
  by destruct (JS.split_ne c a).
Qed.

(** Joining what was split gives the string back. *)
Lemma join_split (c : ascii) (s : string) :
  JS.join (String c "") (JS.split c s) = s.
Proof.
  unfold JS.split. induction s as [|d s IH]; [done|].
  cbn [JS.split_ne]. destruct (JS.split_ne c s) as [hd tl].
  destruct (JS.ascii_eqb d c) eqn:Hd.
  - apply ascii_eqb_true in Hd as ->.
    change (JS.join (String c "") ("" :: hd :: tl))
      with ("" +:+ String c "" +:+ JS.join (String c "") (hd :: tl)).
    by rewrite IH.
  - destruct tl as [|x tl].
    + cbn [JS.join] in *. by rewrite IH.
    + change (JS.join (String c "") (String d hd :: x :: tl))
        with (String d hd +:+ String c "" +:+ JS.join (String c "") (x :: tl)).
      change (JS.join (String c "") (hd :: x :: tl))
        with (hd +:+ String c "" +:+ JS.join (String c "") (x :: tl)) in IH.
      by rewrite app_String, IH.
Qed.

Lemma split_last (c : ascii) (a b : string) :
  lacks c b = true ->
  JS.split c (a +:+ String c b) = JS.split c a ++ [b].
Proof. intros Hb. by rewrite split_app, (split_lacks c b Hb). Qed.

Lemma slice_last_snoc (l : list string) (x : string) :
  JS.slice_last (l ++ [x]) = x.
Proof. apply List.last_last. Qed.

Lemma slice_init_snoc (l : list string) (x : string) :
  JS.slice_init (l ++ [x]) = l.
Proof. apply List.removelast_last. Qed.

End Names.

(** X22.  A file whose name has a dot gets an output name that keeps what
    stands before the last dot: for a last path segment [stem.e], [e]
    without a dot, the output is named [stem.filterline-<time><ext>], [ext]
    being what [path.extname] answers.  A name of several dots keeps all but
    the last part, and a name that starts with its only dot keeps
    nothing. *)
Theorem outName_dotted (h : Host) (fromUri : Uri.t) (stem e : string) :
  Uri.scheme fromUri = "file" ->
  JS.slice_last (JS.split (sep h) (Uri.fsPath fromUri)) =
    stem +:+ String "." e ->
  lacks "." e = true ->
  Filter.outName fromUri h =
  stem +:+ ".filterline-" +:+ JS.toString (getTime h) +:+
  extname h (Uri.path fromUri).
Proof.
  intros Hscheme Hseg He. rewrite outName_file by done.
  rewrite Hseg, (split_last "." stem e He), slice_init_snoc.
  by rewrite (join_split "." stem).
Qed.

Lemma outName_dotted_witness :
  let h := Tweak.plain in
  Filter.outName (Example.file "/srv/backup/site.tar.gz") h =
  "site.tar" +:+ ".filterline-" +:+ JS.toString (getTime h) +:+
  extname h "/srv/backup/site.tar.gz".
Proof.
  intros h.
  apply (outName_dotted h (Example.file "/srv/backup/site.tar.gz")
           "site.tar" "gz").
  - reflexivity.
  - reflexivity.
  - reflexivity.
Defined.

Section Saved.

(** The name under which [filter_] saves: when [Uri.parse] answers for the
    temporary file with the path that was written, the resource the output
    is moved to is what [Uri.parse] makes of the folder of the source
    followed by the output name. *)
Lemma adjacent_name (h : Host) (uri tmpPath : Uri.t) (dir name : string) :
  Uri.fsPath uri = dir +:+ String (sep h) name ->
  lacks (sep h) name = true ->
  lacks (sep h) (Filter.outName uri h) = true ->
  Uri.fsPath tmpPath = Filter.outPath uri h ->
  adjacent h uri tmpPath =
  Uri_parse h (dir +:+ String (sep h) "" +:+ Filter.outName uri h).
Proof.
  intros Hfs Hname Hout Htmp. unfold adjacent. rewrite Htmp, Hfs.
  unfold Filter.outPath.
  rewrite (app_String (sep h) "" (Filter.outName uri h)), app_empty_l.
  rewrite (split_last _ _ _ Hout), slice_last_snoc.
  rewrite (split_last _ _ _ Hname), slice_init_snoc, join_split.
  by rewrite app_String, app_empty_l.
Qed.

End Saved.

(** X23.  The file saved next to the source has the folder of the source and
    the name of the temporary file.  With [saveAfterFiltering] on, a [file]
    source [dir/name], an output name free of separators and a [Uri.parse]
    that answers for the temporary file with the path that was written,
    [filter_] writes the output to [<tmpdir>/<output name>] and then asks
    for it to be moved to what [Uri.parse] makes of [dir/<output name>]. *)
Theorem saved_file_path {Self : Type} `{FilterLineBase.Overrides Self}
    (h : Host) (self : Self) (uri : Uri.t) (dir name : string)
    (input : Readable) (chunks : list string) (size : Z) :
  saveAfterFiltering h = true ->
  Uri.scheme uri = "file" ->
  Uri.fsPath uri = dir +:+ String (sep h) name ->
  lacks (sep h) name = true ->
  lacks (sep h) (Filter.outName uri h) = true ->
  Uri.fsPath (Uri_parse h ("file:" +:+ Filter.outPath uri h)) =
    Filter.outPath uri h ->
  M.outcome (Filter.createInputStream uri h self) = Returned input ->
  openWrite h (Filter.outPath uri h) = Returned tt ->
  read h input = Returned chunks ->
  stat h (Filter.outPath uri h) = Returned size ->
  let tmp := tmpdir h +:+ String (sep h) "" +:+ Filter.outName uri h in
  let dst := dir +:+ String (sep h) "" +:+ Filter.outName uri h in
  exists post,
    M.trace (FilterLineBase.filter_ uri h self) =
    [CreateReadStream input;
     CreateWriteStream tmp;
     WriteStreamEnd tmp
       (FilterStream.run
          (fun line => of_option (FilterLineBase.matchLine self line)) chunks);
     StatAsync tmp;
     MoveAsync tmp (Uri.fsPath (Uri_parse h dst))] ++ post.
Proof.
  intros Hsave Hscheme Hfs Hname Hout Hparse Hin Hopen Hread Hstat tmp dst.
  pose proof (process_run uri
                (fun line => of_option (FilterLineBase.matchLine self line))
                h self input chunks Hin Hopen Hread) as Hproc.
  rewrite <- Hparse in Hstat.
  rewrite (filter__saves h self uri _ _ size Hsave Hproc Hstat).
  cbv beta iota zeta.
  rewrite (adjacent_name h uri _ dir name Hfs Hname Hout Hparse).
  rewrite bool_decide_eq_true_2 by done. rewrite Hparse.
  fold (Filter.outPath uri h) tmp dst.
  unfold M.trace.
  destruct (move h _ _) as [[]|e|];
    [destruct (openTextDocument h _) as [[]| |];
       [destruct (showTextDocument h _) as [[]| |]|..]
    |destruct (openTextDocument h _) as [[]| |];
       [destruct (showTextDocument h _) as [[]| |]|..]
    |]; cbn; eexists; reflexivity.
Qed.

Lemma saved_file_path_witness :
  let h := Example.host true 5 (Returned "an") (Returned tt) []
             Example.fruit in
  let uri := Example.file "/var/log/sys.log" in
  exists post,
    M.trace (FilterLineBase.filter_ uri h Tweak.banana) =
    [CreateReadStream (ReadStream "/var/log/sys.log");
     CreateWriteStream "/tmp/sys.filterline-1700000000000.log";
     WriteStreamEnd "/tmp/sys.filterline-1700000000000.log"
       [Example.line "banana"];
     StatAsync "/tmp/sys.filterline-1700000000000.log";
     MoveAsync "/tmp/sys.filterline-1700000000000.log"
               "/var/log/sys.filterline-1700000000000.log"] ++ post.
Proof.
  intros h uri.
  destruct (saved_file_path h Tweak.banana uri "/var/log" "sys.log"
              (ReadStream "/var/log/sys.log") Example.fruit 5)
    as [post Hpost].
  - reflexivity.
  - reflexivity.
  - reflexivity.
  - reflexivity.
  - reflexivity.
  - reflexivity.
  - reflexivity.
  - reflexivity.
  - reflexivity.
  - reflexivity.
  - exists post. exact Hpost.
Defined.

Section Time.

Lemma toString_inj (n1 n2 : N) : JS.toString n1 = JS.toString n2 -> n1 = n2.
Proof.
  unfold JS.toString. intros Heq.
  assert (forall n, N.to_uint n <> Nil) as Hnil.
  { intros [|p]; [discriminate|]. apply DecimalPos.Unsigned.to_uint_nonnil. }
  pose proof (NilZero.usu _ (Hnil n1)) as H1.
  pose proof (NilZero.usu _ (Hnil n2)) as H2.
  rewrite Heq, H2 in H1. injection H1 as H1.
  by apply DecimalN.Unsigned.to_uint_inj.
Qed.

Lemma length_app (a b : string) :
  String.length (a +:+ b) = (String.length a + String.length b)%nat.
Proof. induction a as [|c a IH]; [done|]. rewrite app_String. cbn. by rewrite IH. Qed.

Lemma app_inj_r (a b e : string) : a +:+ e = b +:+ e -> a = b.
Proof.
  revert b. induction a as [|c a IH]; intros [|d b] Heq; [done|..].
  - apply (f_equal String.length) in Heq. rewrite !length_app in Heq.
    cbn in Heq. lia.
  - apply (f_equal String.length) in Heq. rewrite !length_app in Heq.
    cbn in Heq. lia.
  - rewrite !app_String in Heq. injection Heq as -> Heq. f_equal. by apply IH.
Qed.

End Time.

(** X24.  On one machine, two runs on the same source write to the same
    temporary file exactly when they start in the same millisecond: the
    time is all that tells their outputs apart. *)
Theorem output_path_by_time (h1 h2 : Host) (fromUri : Uri.t) :
  tmpdir h1 = tmpdir h2 ->
  sep h1 = sep h2 ->
  extname h1 (Uri.path fromUri) = extname h2 (Uri.path fromUri) ->
  Filter.outPath fromUri h1 = Filter.outPath fromUri h2 <->
  getTime h1 = getTime h2.
Proof.
  intros Htmp Hsep Hext. unfold Filter.outPath, Filter.outName.
  rewrite Htmp, Hsep, Hext. split; [|by intros ->].
  destruct (negb (bool_decide (Uri.scheme fromUri = "file"))).
  - intros Heq. do 6 apply String.app_inj in Heq.
    apply app_inj_r in Heq. by apply toString_inj.
  - intros Heq. do 6 apply String.app_inj in Heq.
    apply app_inj_r in Heq. by apply toString_inj.
Qed.

Lemma output_path_by_time_witness :
  let h1 := Tweak.plain in
  let h2 := Example.host true 9 Pending (Returned tt) [] [] in
  Filter.outPath (Example.file "/var/log/sys.log") h1 =
  Filter.outPath (Example.file "/var/log/sys.log") h2 <->
  getTime h1 = getTime h2.
Proof.
  intros h1 h2.
  apply (output_path_by_time h1 h2 (Example.file "/var/log/sys.log")).
  - reflexivity.
  - reflexivity.
  - reflexivity.
Defined.
